(** * SyncRoutes: on-demand synchronisation of observations to ChromaDB

    A shallow embedding of [src/services/worker/http/routes/SyncRoutes.ts]
    and the properties of its request handler [handleSyncObservations].

    The handler is JavaScript working on untyped request bodies and database
    rows, so the embedding starts from a model of the JavaScript data values
    the handler inspects ([typeof], [||], [Array.isArray], [JSON.stringify],
    template literals), then the handler itself in a small monad that records
    the calls made to its collaborators and may throw. *)

From Stdlib Require Import ZArith List String Ascii Bool Lia.
From Stdlib Require Import DecimalString DecimalFacts DecimalPos DecimalZ.
Import ListNotations.
Local Open Scope string_scope.

#[local] Set Warnings "-register-all".

(* ===================================================================== *)
(** ** JavaScript data values *)
(* ===================================================================== *)

(** A JavaScript number.  The finite numbers of the model are the integers
    (row ids, counts, epochs, token counts and array lengths are integers);
    they print in plain decimal, as JavaScript prints every integer below
    10^21.  The non-finite numbers are kept because [||] and
    [JSON.stringify] treat them specially. *)
Inductive number : Type :=
| Finite (z : Z)
| NaN
| Infinity
| NegInfinity.

(** The values a request body or a database row is made of: a missing
    property reads as [JUndefined]; an object is the list of its own
    enumerable properties in enumeration order.  A [BigInt] is what the
    SQLite driver gives for an integer column read with safe integers; it
    is the one value here that [JSON.stringify] rejects (a structure that
    contains itself, rejected in the same way, has no value here). *)
Inductive value : Type :=
| JUndefined
| JNull
| JBool (b : bool)
| JNumber (n : number)
| JBigInt (z : Z)
| JString (s : string)
| JArray (elems : list value)
| JObject (props : list (string * value)).

(** The double quote character, and a text between double quotes. *)
Definition dquote : ascii := "034"%char.
Definition backslash : ascii := "092"%char.

Definition quoted (s : string) : string :=
  String dquote (s ++ String dquote EmptyString).

(** [typeof v === 'string'] *)
Definition typeof_string (v : value) : bool :=
  match v with
  | JString _ => true
  | _ => false
  end.

(** [Array.isArray(v)] *)
Definition Array_isArray (v : value) : bool :=
  match v with
  | JArray _ => true
  | _ => false
  end.

(** ToBoolean: the falsy values are [undefined], [null], [false], [0],
    [NaN], [0n] and the empty string. *)
Definition truthy (v : value) : bool :=
  match v with
  | JUndefined => false
  | JNull => false
  | JBool b => b
  | JNumber (Finite z) => negb (Z.eqb z 0)
  | JNumber NaN => false
  | JNumber _ => true
  | JBigInt z => negb (Z.eqb z 0)
  | JString s => negb (String.eqb s EmptyString)
  | JArray _ => true
  | JObject _ => true
  end.

(** [a || b] *)
Definition js_or (a b : value) : value :=
  if truthy a then a else b.

(** [undefined] and [null]: the values without properties. *)
Definition nullish (v : value) : bool :=
  match v with
  | JUndefined | JNull => true
  | _ => false
  end.

Definition string_of_Z (z : Z) : string :=
  NilZero.string_of_int (Z.to_int z).

(** Number::toString *)
Definition number_toString (n : number) : string :=
  match n with
  | Finite z => string_of_Z z
  | NaN => "NaN"
  | Infinity => "Infinity"
  | NegInfinity => "-Infinity"
  end.

Fixpoint join (sep : string) (parts : list string) : string :=
  match parts with
  | [] => EmptyString
  | [p] => p
  | p :: rest => p ++ sep ++ join sep rest
  end.

(** ToString, as a template literal [`${v}`] applies it.  An array prints
    its elements separated by commas, [undefined] and [null] elements as
    nothing; a plain object prints as [[object Object]]. *)
Fixpoint ToString (v : value) : string :=
  match v with
  | JUndefined => "undefined"
  | JNull => "null"
  | JBool true => "true"
  | JBool false => "false"
  | JNumber n => number_toString n
  | JBigInt z => string_of_Z z
  | JString s => s
  | JArray elems =>
      join "," (map (fun e => if nullish e then EmptyString else ToString e) elems)
  | JObject _ => "[object Object]"
  end.

(* ===================================================================== *)
(** ** Exceptions *)
(* ===================================================================== *)

(** How the evaluation of an expression ends: with a value, or with a
    thrown JavaScript value. *)
Inductive completion (A : Type) : Type :=
| Normal (a : A)
| Throw (e : value).

Arguments Normal {A} a.
Arguments Throw {A} e.

Definition cbind {A B : Type} (c : completion A) (k : A -> completion B)
  : completion B :=
  match c with
  | Normal a => k a
  | Throw e => Throw e
  end.

Declare Scope completion_scope.
Delimit Scope completion_scope with completion.

Notation "'let?' x ':=' c 'in' k" := (cbind c (fun x => k))
  (at level 10, x name, c at level 100, k at level 200) : completion_scope.

(** [observations.map(f)], for a callback that may throw: the elements are
    visited in order and the first exception ends the call. *)
Fixpoint map_completion {A B : Type} (f : A -> completion B) (l : list A)
  : completion (list B) :=
  match l with
  | [] => Normal []
  | a :: rest =>
      (let? b := f a in
       let? bs := map_completion f rest in
       Normal (b :: bs))%completion
  end.

(** The error object of a [TypeError]. *)
Definition TypeError (message : string) : value :=
  JObject [("name", JString "TypeError"); ("message", JString message)].

(* ===================================================================== *)
(** ** JSON.stringify *)
(* ===================================================================== *)

Definition hex_digit (n : nat) : ascii :=
  match n with
  | 0 => "0" | 1 => "1" | 2 => "2" | 3 => "3" | 4 => "4"
  | 5 => "5" | 6 => "6" | 7 => "7" | 8 => "8" | 9 => "9"
  | 10 => "a" | 11 => "b" | 12 => "c" | 13 => "d" | 14 => "e"
  | _ => "f"
  end%char.

(** One code unit of a string inside a JSON text (QuoteJSONString): the
    double quote and the backslash are escaped, the control characters get
    their short escape or [\u00XX]. *)
Definition escape_char (c : ascii) : string :=
  let n := nat_of_ascii c in
  if Nat.eqb n 34 then String backslash (String dquote EmptyString)
  else if Nat.eqb n 92 then String backslash (String backslash EmptyString)
  else if Nat.eqb n 8 then String backslash "b"
  else if Nat.eqb n 9 then String backslash "t"
  else if Nat.eqb n 10 then String backslash "n"
  else if Nat.eqb n 12 then String backslash "f"
  else if Nat.eqb n 13 then String backslash "r"
  else if Nat.ltb n 32 then
    String backslash
      (String "u" (String "0" (String "0"
         (String (hex_digit (n / 16)) (String (hex_digit (n mod 16)) EmptyString)))))
  else String c EmptyString.

Fixpoint escape (s : string) : string :=
  match s with
  | EmptyString => EmptyString
  | String c rest => escape_char c ++ escape rest
  end.

Definition QuoteJSONString (s : string) : string :=
  quoted (escape s).

(** What is written for an element of an array: [null] in place of
    [undefined]. *)
Definition element_of (r : option string) : string :=
  match r with
  | Some t => t
  | None => "null"
  end.

(** [JSON.stringify(v)]: [None] is the result [undefined], which
    [JSON.stringify] gives for [undefined] itself.  Inside an array
    [undefined] is written [null]; inside an object a property whose value
    is [undefined] is left out; a number that is not finite is written
    [null].  A BigInt, wherever it is met, makes the whole call throw a
    [TypeError]. *)
Fixpoint JSON_stringify (v : value) : completion (option string) :=
  match v with
  | JUndefined => Normal None
  | JNull => Normal (Some "null")
  | JBool true => Normal (Some "true")
  | JBool false => Normal (Some "false")
  | JNumber (Finite z) => Normal (Some (string_of_Z z))
  | JNumber _ => Normal (Some "null")
  | JBigInt _ => Throw (TypeError "Do not know how to serialize a BigInt")
  | JString s => Normal (Some (QuoteJSONString s))
  | JArray elems =>
      (let? parts :=
         (fix elements (l : list value) : completion (list string) :=
            match l with
            | [] => Normal []
            | e :: rest =>
                let? r := JSON_stringify e in
                let? ts := elements rest in
                Normal (element_of r :: ts)
            end) elems in
       Normal (Some ("[" ++ join "," parts ++ "]")))%completion
  | JObject props =>
      (let? parts :=
         (fix members (ps : list (string * value))
            : completion (list string) :=
            match ps with
            | [] => Normal []
            | (k, e) :: rest =>
                let? r := JSON_stringify e in
                let? ms := members rest in
                Normal (match r with
                        | Some t => (QuoteJSONString k ++ ":" ++ t) :: ms
                        | None => ms
                        end)
            end) props in
       Normal (Some ("{" ++ join "," parts ++ "}")))%completion
  end.

(** The value of the expression [JSON.stringify(v)]. *)
Definition JSON_stringify_value (v : value) : completion value :=
  (let? r := JSON_stringify v in
   Normal (match r with
           | Some t => JString t
           | None => JUndefined
           end))%completion.

(* ===================================================================== *)
(** ** Valid serialized-array text *)
(* ===================================================================== *)

(** A text is a valid serialized array when it is a JSON text (RFC 8259)
    whose value is an array.  The recognizer below follows the JSON grammar:
    each function consumes one construct from the front of its input and
    returns what is left. *)

Definition is_ws (c : ascii) : bool :=
  let n := nat_of_ascii c in
  Nat.eqb n 32 || Nat.eqb n 9 || Nat.eqb n 10 || Nat.eqb n 13.

Fixpoint skip_ws (s : string) : string :=
  match s with
  | String c rest => if is_ws c then skip_ws rest else s
  | EmptyString => s
  end.

Definition is_digit (c : ascii) : bool :=
  let n := nat_of_ascii c in
  Nat.leb 48 n && Nat.leb n 57.

Definition is_hex (c : ascii) : bool :=
  let n := nat_of_ascii c in
  is_digit c || (Nat.leb 97 n && Nat.leb n 102)
  || (Nat.leb 65 n && Nat.leb n 70).

(** The character after a backslash, [u] apart. *)
Definition is_simple_escape (c : ascii) : bool :=
  let n := nat_of_ascii c in
  Nat.eqb n 34 || Nat.eqb n 92 || Nat.eqb n 47 || Nat.eqb n 98
  || Nat.eqb n 102 || Nat.eqb n 110 || Nat.eqb n 114 || Nat.eqb n 116.

(** A JSON string after its opening quote, up to its closing quote. *)
Fixpoint json_string_body (s : string) : option string :=
  match s with
  | EmptyString => None
  | String c rest =>
      if Ascii.eqb c dquote then Some rest
      else if Ascii.eqb c backslash then
        match rest with
        | String e rest' =>
            if is_simple_escape e then json_string_body rest'
            else if Ascii.eqb e "u" then
              match rest' with
              | String h1 (String h2 (String h3 (String h4 rest''))) =>
                  if is_hex h1 && is_hex h2 && is_hex h3 && is_hex h4
                  then json_string_body rest''
                  else None
              | _ => None
              end
            else None
        | EmptyString => None
        end
      else if Nat.ltb (nat_of_ascii c) 32 then None
      else json_string_body rest
  end.

Fixpoint skip_digits (s : string) : string :=
  match s with
  | String c rest => if is_digit c then skip_digits rest else s
  | EmptyString => s
  end.

Definition json_digits1 (s : string) : option string :=
  match s with
  | String c rest => if is_digit c then Some (skip_digits rest) else None
  | EmptyString => None
  end.

(** [0], or a digit other than [0] followed by digits. *)
Definition json_int (s : string) : option string :=
  match s with
  | String c rest =>
      if Ascii.eqb c "0" then Some rest
      else if is_digit c then Some (skip_digits rest)
      else None
  | EmptyString => None
  end.

Definition json_frac (s : string) : option string :=
  match s with
  | String c rest => if Ascii.eqb c "." then json_digits1 rest else Some s
  | EmptyString => Some s
  end.

Definition json_exp (s : string) : option string :=
  match s with
  | String c rest =>
      if Ascii.eqb c "e" || Ascii.eqb c "E" then
        match rest with
        | String sg rest' =>
            if Ascii.eqb sg "+" || Ascii.eqb sg "-"
            then json_digits1 rest'
            else json_digits1 rest
        | EmptyString => None
        end
      else Some s
  | EmptyString => Some s
  end.

Definition json_number (s : string) : option string :=
  let unsigned :=
    match s with
    | String c rest => if Ascii.eqb c "-" then rest else s
    | EmptyString => s
    end in
  match json_int unsigned with
  | Some r =>
      match json_frac r with
      | Some r' => json_exp r'
      | None => None
      end
  | None => None
  end.

Fixpoint strip_prefix (p s : string) : option string :=
  match p with
  | EmptyString => Some s
  | String c p' =>
      match s with
      | String d s' => if Ascii.eqb c d then strip_prefix p' s' else None
      | EmptyString => None
      end
  end.

(** [json_value] consumes one JSON value, [json_elements] the elements of
    an array after [[] or a comma, up to the closing bracket,
    [json_members] the members of an object after [{] or a comma, up to
    the closing brace.  The fuel bounds the nesting. *)
Fixpoint json_value (fuel : nat) (s : string) : option string :=
  match fuel with
  | O => None
  | S fuel' =>
      match skip_ws s with
      | EmptyString => None
      | String c rest =>
          if Ascii.eqb c "[" then
            match skip_ws rest with
            | String c' rest' =>
                if Ascii.eqb c' "]" then Some rest'
                else json_elements fuel' rest
            | EmptyString => None
            end
          else if Ascii.eqb c "{" then
            match skip_ws rest with
            | String c' rest' =>
                if Ascii.eqb c' "}" then Some rest'
                else json_members fuel' rest
            | EmptyString => None
            end
          else if Ascii.eqb c dquote then json_string_body rest
          else if Ascii.eqb c "t" then strip_prefix "rue" rest
          else if Ascii.eqb c "f" then strip_prefix "alse" rest
          else if Ascii.eqb c "n" then strip_prefix "ull" rest
          else json_number (String c rest)
      end
  end
with json_elements (fuel : nat) (s : string) : option string :=
  match fuel with
  | O => None
  | S fuel' =>
      match json_value fuel' s with
      | Some r =>
          match skip_ws r with
          | String c r' =>
              if Ascii.eqb c "," then json_elements fuel' r'
              else if Ascii.eqb c "]" then Some r'
              else None
          | EmptyString => None
          end
      | None => None
      end
  end
with json_members (fuel : nat) (s : string) : option string :=
  match fuel with
  | O => None
  | S fuel' =>
      match skip_ws s with
      | String q r =>
          if Ascii.eqb q dquote then
            match json_string_body r with
            | Some r1 =>
                match skip_ws r1 with
                | String c1 r2 =>
                    if Ascii.eqb c1 ":" then
                      match json_value fuel' r2 with
                      | Some r3 =>
                          match skip_ws r3 with
                          | String c3 r4 =>
                              if Ascii.eqb c3 "," then json_members fuel' r4
                              else if Ascii.eqb c3 "}" then Some r4
                              else None
                          | EmptyString => None
                          end
                      | None => None
                      end
                    else None
                | EmptyString => None
                end
            | None => None
            end
          else None
      | EmptyString => None
      end
  end.

(** The whole text is one JSON value, and that value is an array.  No
    construct nests deeper than the text is long, so the length of the
    text is fuel enough. *)
Definition valid_serialized_array (s : string) : bool :=
  match skip_ws s with
  | String c _ =>
      Ascii.eqb c "[" &&
      match json_value (String.length s) s with
      | Some r => String.eqb (skip_ws r) EmptyString
      | None => false
      end
  | EmptyString => false
  end.

(* ===================================================================== *)
(** ** Property access *)
(* ===================================================================== *)

Fixpoint lookup (k : string) (props : list (string * value)) : value :=
  match props with
  | [] => JUndefined
  | (k', v) :: rest => if String.eqb k k' then v else lookup k rest
  end.

(** [v.k] for a property name [k] (the handler reads named properties
    only, never an index): reading a property of [undefined] or [null]
    throws a [TypeError]; a property an object does not have, and any
    named property of a boolean, a number or a BigInt, reads as
    [undefined]; arrays
    and strings have a [length]. *)
Definition get (v : value) (k : string) : completion value :=
  match v with
  | JUndefined | JNull =>
      Throw (TypeError ("Cannot read properties of " ++ ToString v
                          ++ " (reading '" ++ k ++ "')"))
  | JObject props => Normal (lookup k props)
  | JArray elems =>
      Normal (if String.eqb k "length"
              then JNumber (Finite (Z.of_nat (List.length elems)))
              else JUndefined)
  | JString s =>
      Normal (if String.eqb k "length"
              then JNumber (Finite (Z.of_nat (String.length s)))
              else JUndefined)
  | JBool _ | JNumber _ | JBigInt _ => Normal JUndefined
  end.

(* ===================================================================== *)
(** ** The document handed to ChromaSync *)
(* ===================================================================== *)

(** The object literal built at lines 55-72, one field per property. *)
Module StoredObservation.
Record t : Type := mk {
  id : value;
  memory_session_id : value;
  project : value;
  text : value;
  type : value;
  title : value;
  subtitle : value;
  facts : value;
  narrative : value;
  concepts : value;
  files_read : value;
  files_modified : value;
  prompt_number : value;
  discovery_tokens : value;
  created_at : value;
  created_at_epoch : value
}.
End StoredObservation.

(** [typeof x === 'string' ? x : JSON.stringify(x || [])], the expression
    of lines 63, 65, 66 and 67. *)
Definition normalize_collection (x : value) : completion value :=
  if typeof_string x then Normal x
  else JSON_stringify_value (js_or x (JArray [])).

(** The callback of [observations.map] (lines 55-72): the properties of
    the object literal are evaluated in the order they are written. *)
Definition toStoredObservation (obs : value)
  : completion StoredObservation.t :=
  (let? id := get obs "id" in
   let? memory_session_id := get obs "memory_session_id" in
   let? project := get obs "project" in
   let? type := get obs "type" in
   let? title := get obs "title" in
   let? subtitle := get obs "subtitle" in
   let? facts := get obs "facts" in
   let? facts' := normalize_collection facts in
   let? narrative := get obs "narrative" in
   let? concepts := get obs "concepts" in
   let? concepts' := normalize_collection concepts in
   let? files_read := get obs "files_read" in
   let? files_read' := normalize_collection files_read in
   let? files_modified := get obs "files_modified" in
   let? files_modified' := normalize_collection files_modified in
   let? prompt_number := get obs "prompt_number" in
   let? discovery_tokens := get obs "discovery_tokens" in
   let? created_at := get obs "created_at" in
   let? created_at_epoch := get obs "created_at_epoch" in
   Normal {|
     StoredObservation.id := id;
     StoredObservation.memory_session_id := memory_session_id;
     StoredObservation.project := project;
     StoredObservation.text := JNull;
     StoredObservation.type := type;
     StoredObservation.title := title;
     StoredObservation.subtitle := subtitle;
     StoredObservation.facts := facts';
     StoredObservation.narrative := narrative;
     StoredObservation.concepts := concepts';
     StoredObservation.files_read := files_read';
     StoredObservation.files_modified := files_modified';
     StoredObservation.prompt_number := js_or prompt_number (JNumber (Finite 0));
     StoredObservation.discovery_tokens :=
       js_or discovery_tokens (JNumber (Finite 0));
     StoredObservation.created_at := created_at;
     StoredObservation.created_at_epoch := created_at_epoch
   |})%completion.


(* ===================================================================== *)
(** ** The handler's effects *)
(* ===================================================================== *)

(** What the handler answers.  [res.json(body)] is Express's;
    [this.badRequest(res, message)] and [this.serverError(res, message)]
    are inherited from [BaseRouteHandler], whose source is in another file:
    an answer is recorded as the call that makes it. *)
Inductive response : Type :=
| res_json (body : value)
| badRequest (message : string)
| serverError (message : string).

(** Everything the handler does to the world outside it, one event per
    call: the logger calls, the read of the SQLite store, the write to
    Chroma, and the answer.  Logging and answering return normally. *)
Inductive event : Type :=
| logger_info (component message : string) (context : option value)
| logger_error (component message : string) (context : option value)
| sessionStore_getObservationsByIds (ids options : value)
| chromaSync_syncStoredObservations (docs : list StoredObservation.t)
| respond (r : response).

(** A computation of the handler: the events it produced, in order, and
    how it ended. *)
Definition M (A : Type) : Type := (list event * completion A)%type.

Definition bind {A B : Type} (m : M A) (k : A -> M B) : M B :=
  match m with
  | (t, Normal a) => let (t', r) := k a in ((t ++ t')%list, r)
  | (t, Throw e) => (t, Throw e)
  end.

(** [try { m } catch (e) { handler e }] *)
Definition try_catch {A : Type} (m : M A) (handler : value -> M A) : M A :=
  match m with
  | (t, Normal a) => (t, Normal a)
  | (t, Throw e) => let (t', r) := handler e in ((t ++ t')%list, r)
  end.

Definition emit (ev : event) : M unit := ([ev], Normal tt).

Definition lift {A : Type} (c : completion A) : M A := ([], c).

Declare Scope handler_scope.
Delimit Scope handler_scope with handler.

Notation "x <- m ;; k" := (bind m (fun x => k))
  (at level 61, m at next level, right associativity) : handler_scope.
Notation "m ;; k" := (bind m (fun _ => k))
  (at level 61, right associativity) : handler_scope.

Definition trace {A : Type} (m : M A) : list event := fst m.
Definition outcome {A : Type} (m : M A) : completion A := snd m.

(** [!ids || !Array.isArray(ids) || ids.length === 0] (line 38); the
    length is read only of a value that is an array. *)
Definition invalid_ids (ids : value) : bool :=
  negb (truthy ids) || negb (Array_isArray ids) ||
  match ids with
  | JArray elems => Nat.eqb (List.length elems) 0
  | _ => false
  end.

(** The elements of a value that is known to be an array. *)
Definition elements (v : value) : list value :=
  match v with
  | JArray elems => elems
  | _ => []
  end.

Definition length_of {A : Type} (l : list A) : value :=
  JNumber (Finite (Z.of_nat (List.length l))).

Section Handler.

(** The two collaborators.  [sessionStore.getObservationsByIds(ids, options)]
    returns the rows it found or throws; the promise of
    [chromaSync.syncStoredObservations(docs)] resolves to the count the
    embedding subsystem reports, or the call throws or the promise is
    rejected, which under [await] inside [try] is the same. *)
Variable getObservationsByIds : value -> value -> completion (list value).
Variable syncStoredObservations :
  list StoredObservation.t -> completion value.

Definition call_getObservationsByIds (ids options : value)
  : M (list value) :=
  (emit (sessionStore_getObservationsByIds ids options) ;;
   lift (getObservationsByIds ids options))%handler.

Definition call_syncStoredObservations (docs : list StoredObservation.t)
  : M value :=
  (emit (chromaSync_syncStoredObservations docs) ;;
   lift (syncStoredObservations docs))%handler.

(** The [try] block (lines 46-78). *)
Definition try_block (ids : value) : M unit :=
  (observations <- call_getObservationsByIds ids (JObject []) ;;
   if Nat.eqb (List.length observations) 0 then
     emit (respond (res_json (JObject
             [("success", JBool true);
              ("embeddedCount", JNumber (Finite 0));
              ("message", JString "No observations found for given IDs")])))
   else
     storedObservations <-
       lift (map_completion toStoredObservation observations) ;;
     embeddedCount <- call_syncStoredObservations storedObservations ;;
     emit (logger_info "SYNC"
             ("Synced " ++ ToString embeddedCount ++ "/"
                ++ ToString (length_of observations) ++ " observations")
             None) ;;
     emit (respond (res_json (JObject
             [("success", JBool true);
              ("embeddedCount", embeddedCount)]))))%handler.

(** The [catch (e)] clause (lines 80-83); [e.message] is read twice. *)
Definition catch_clause (e : value) : M unit :=
  (message <- lift (get e "message") ;;
   emit (logger_error "SYNC" "Failed to sync observations"
           (Some (JObject [("error", message)]))) ;;
   message' <- lift (get e "message") ;;
   emit (respond (serverError ("Sync failed: " ++ ToString message'))))
  %handler.

(** Lines 38-83: the handler once [ids] has been taken out of the request
    body. *)
Definition syncObservations (ids : value) : M unit :=
  if invalid_ids ids then
    emit (respond (badRequest "ids array is required"))
  else
    (emit (logger_info "SYNC"
             ("Syncing " ++ ToString (length_of (elements ids))
                ++ " observations to ChromaDB")
             (Some (JObject [("ids", JArray (firstn 5 (elements ids)))]))) ;;
     try_catch (try_block ids) catch_clause)%handler.

(** The function given to [wrapHandler] (lines 35-84), applied to a request
    whose [req.body] is [body]: taking [ids] out of a body that is
    [undefined] or [null] throws a [TypeError]. *)
Definition handleSyncObservations (body : value) : M unit :=
  (ids <- lift (get body "ids") ;;
   syncObservations ids)%handler.

End Handler.


(** The calls to the two collaborators, counted in a trace. *)
Definition is_read (ev : event) : bool :=
  match ev with
  | sessionStore_getObservationsByIds _ _ => true
  | _ => false
  end.

Definition is_write (ev : event) : bool :=
  match ev with
  | chromaSync_syncStoredObservations _ => true
  | _ => false
  end.

(** A call to either collaborator. *)
Definition is_call (ev : event) : bool := is_read ev || is_write ev.

Definition reads (t : list event) : nat := List.length (filter is_read t).
Definition writes (t : list event) : nat := List.length (filter is_write t).

(** The answers given in a trace. *)
Definition responses (t : list event) : list response :=
  flat_map (fun ev => match ev with respond r => [r] | _ => [] end) t.

(** The text [JSON.stringify] writes for an element of an array, for the
    elements of an array, and for the properties of an object. *)
Definition element_text (v : value) : completion string :=
  (let? r := JSON_stringify v in Normal (element_of r))%completion.

Fixpoint elements_text (elems : list value) : completion (list string) :=
  match elems with
  | [] => Normal []
  | e :: rest =>
      (let? r := JSON_stringify e in
       let? ts := elements_text rest in
       Normal (element_of r :: ts))%completion
  end.

Fixpoint members (props : list (string * value))
  : completion (list string) :=
  match props with
  | [] => Normal []
  | (k, e) :: rest =>
      (let? r := JSON_stringify e in
       let? ms := members rest in
       Normal (match r with
               | Some t => (QuoteJSONString k ++ ":" ++ t) :: ms
               | None => ms
               end))%completion
  end.

(** Whether a BigInt occurs in a value. *)
Fixpoint holds_bigint (v : value) : bool :=
  match v with
  | JBigInt _ => true
  | JArray elems => existsb holds_bigint elems
  | JObject props => existsb (fun kv => holds_bigint (snd kv)) props
  | _ => false
  end.

(** The values line 63 can normalize: a string is passed through, a falsy
    value is replaced by the empty array, and anything else goes through
    [JSON.stringify], which accepts it when it holds no BigInt. *)
Definition normalizable (x : value) : bool :=
  typeof_string x || negb (truthy x) || negb (holds_bigint x).

Definition collection_names : list string :=
  ["facts"; "concepts"; "files_read"; "files_modified"].

(** The rows whose four collection fields can be normalized. *)
Definition transformable (props : list (string * value)) : bool :=
  forallb (fun name => normalizable (lookup name props)) collection_names.

(** Whether an evaluation ended with an exception. *)
Definition throws {A : Type} (c : completion A) : bool :=
  match c with
  | Throw _ => true
  | Normal _ => false
  end.

(** What may follow a value inside a JSON text written without white
    space: nothing, a comma, or a closing bracket or brace. *)
Definition ends_token (rest : string) : bool :=
  match rest with
  | EmptyString => true
  | String c _ => Ascii.eqb c "," || Ascii.eqb c "]" || Ascii.eqb c "}"
  end.

(** The first character of a JSON value. *)
Definition starts_value (s : string) : bool :=
  match s with
  | EmptyString => false
  | String c _ =>
      Ascii.eqb c "[" || Ascii.eqb c "{" || Ascii.eqb c dquote
      || Ascii.eqb c "t" || Ascii.eqb c "f" || Ascii.eqb c "n"
      || Ascii.eqb c "-" || is_digit c
  end.

Definition starts_number (s : string) : bool :=
  match s with
  | EmptyString => false
  | String c _ => Ascii.eqb c "-" || is_digit c
  end.

(** Induction on values, with the induction hypothesis for every element
    of an array and every property value of an object. *)
Section value_induction.

Variable P : value -> Prop.
Hypothesis Pundefined : P JUndefined.
Hypothesis Pnull : P JNull.
Hypothesis Pbool : forall b, P (JBool b).
Hypothesis Pnumber : forall n, P (JNumber n).
Hypothesis Pbigint : forall z, P (JBigInt z).
Hypothesis Pstring : forall s, P (JString s).
Hypothesis Parray : forall elems, Forall P elems -> P (JArray elems).
Hypothesis Pobject :
  forall props, Forall (fun kv => P (snd kv)) props -> P (JObject props).

Fixpoint value_induction (v : value) : P v :=
  match v with
  | JUndefined => Pundefined
  | JNull => Pnull
  | JBool b => Pbool b
  | JNumber n => Pnumber n
  | JBigInt z => Pbigint z
  | JString s => Pstring s
  | JArray elems =>
      Parray elems
        ((fix all (l : list value) : Forall P l :=
            match l with
            | [] => Forall_nil P
            | e :: rest => Forall_cons e (value_induction e) (all rest)
            end) elems)
  | JObject props =>
      Pobject props
        ((fix all (l : list (string * value))
            : Forall (fun kv => P (snd kv)) l :=
            match l with
            | [] => Forall_nil _
            | kv :: rest =>
                Forall_cons kv (value_induction (snd kv)) (all rest)
            end) props)
  end.

End value_induction.

(** The recognizer consumes exactly the text written for [v], whatever
    follows it. *)
Definition recognized (v : value) : Prop :=
  forall t, element_text v = Normal t ->
  forall fuel rest,
    String.length t <= fuel ->
    ends_token rest = true ->
    json_value fuel (t ++ rest) = Some rest.

(** The events and answers of the handler, named for the statements
    below. *)
Definition syncing_log (ids : value) : event :=
  logger_info "SYNC"
    ("Syncing " ++ ToString (length_of (elements ids))
       ++ " observations to ChromaDB")
    (Some (JObject [("ids", JArray (firstn 5 (elements ids)))])).

Definition synced_log (embeddedCount : value) (observations : list value)
  : event :=
  logger_info "SYNC"
    ("Synced " ++ ToString embeddedCount ++ "/"
       ++ ToString (length_of observations) ++ " observations")
    None.

Definition failed_log (message : value) : event :=
  logger_error "SYNC" "Failed to sync observations"
    (Some (JObject [("error", message)])).

Definition read_call (ids : value) : event :=
  sessionStore_getObservationsByIds ids (JObject []).

Definition no_observations : response :=
  res_json (JObject
    [("success", JBool true);
     ("embeddedCount", JNumber (Finite 0));
     ("message", JString "No observations found for given IDs")]).

Definition success (embeddedCount : value) : response :=
  res_json (JObject
    [("success", JBool true); ("embeddedCount", embeddedCount)]).

Definition sync_failed (message : value) : response :=
  serverError ("Sync failed: " ++ ToString message).

(** The four collection fields: the property read from the row and the
    field of the document it ends up in. *)
Definition collection_fields
  : list (string * (StoredObservation.t -> value)) :=
  [("facts", StoredObservation.facts);
   ("concepts", StoredObservation.concepts);
   ("files_read", StoredObservation.files_read);
   ("files_modified", StoredObservation.files_modified)].

(** A field that holds valid serialized-array text. *)
Definition serialized_array_field (v : value) : bool :=
  match v with
  | JString t => valid_serialized_array t
  | _ => false
  end.


(** One field of the document a transformation produced. *)
Definition field_of (field : StoredObservation.t -> value)
           (c : completion StoredObservation.t) : completion value :=
  cbind c (fun d => Normal (field d)).

(** Collaborators and rows for the examples. *)
Definition Error_object (message : string) : value :=
  JObject [("name", JString "Error"); ("message", JString message)].

Definition example_props (id : Z) : list (string * value) :=
  [("id", JNumber (Finite id));
   ("memory_session_id", JString "session-1");
   ("project", JString "claude-mem");
   ("type", JString "discovery");
   ("title", JString "A title");
   ("facts", JArray [JString "a"; JString "b"]);
   ("concepts", JString "[]");
   ("files_read", JNull);
   ("created_at_epoch", JNumber (Finite 1700000000))].

Definition example_row (id : Z) : value := JObject (example_props id).

Definition example_rows : list value :=
  map example_row [1; 2; 3; 4; 5]%Z.

(** The documents of the example rows, computed. *)
Definition example_docs : list StoredObservation.t :=
  Eval vm_compute in
    match map_completion toStoredObservation example_rows with
    | Normal docs => docs
    | Throw _ => []
    end.

Definition example_doc : StoredObservation.t :=
  Eval vm_compute in
    match example_docs with
    | d :: _ => d
    | [] => StoredObservation.mk JNull JNull JNull JNull JNull JNull JNull
              JNull JNull JNull JNull JNull JNull JNull JNull JNull
    end.

Definition example_store_empty (ids options : value)
  : completion (list value) :=
  Normal [].

Definition example_store_locked (ids options : value)
  : completion (list value) :=
  Throw (Error_object "database is locked").

Definition example_store_five (ids options : value)
  : completion (list value) :=
  Normal example_rows.

(** The store of the end-to-end example: it knows the rows 1 and 3. *)
Definition example_store_1_3 (ids options : value)
  : completion (list value) :=
  Normal [example_row 1; example_row 3].

Definition example_chroma_all (docs : list StoredObservation.t)
  : completion value :=
  Normal (length_of docs).

Definition example_chroma_three (docs : list StoredObservation.t)
  : completion value :=
  Normal (JNumber (Finite 3)).

Definition example_ids : value :=
  JArray (map (fun z => JNumber (Finite z)) [1; 2; 3; 4; 5]%Z).

(** More collaborators for the examples: Chroma out of reach, a store
    that returns a hole among its rows, and a row that carries truthy
    numbers. *)
Definition example_chroma_down (docs : list StoredObservation.t)
  : completion value :=
  Throw (Error_object "chroma is down").


(** A store whose lookup throws [null]. *)
Definition example_store_throws_null (ids options : value)
  : completion (list value) :=
  Throw JNull.



Definition example_props_numbers : list (string * value) :=
  [("id", JNumber (Finite 9));
   ("prompt_number", JNumber (Finite 7));
   ("discovery_tokens", JNumber NaN)].

(** A trace without calls to the collaborators and without a
    [badRequest] answer. *)
Definition quiet (t : list event) : Prop :=
  filter is_read t = [] /\ filter is_write t = []
  /\ forall message, ~ In (respond (badRequest message)) t.

(** Case analysis on the 256 characters. *)
Ltac each_ascii c := destruct c as [[] [] [] [] [] [] [] []].

(* ===================================================================== *)
(** ** Strings *)
(* ===================================================================== *)

Lemma string_app_assoc (a b c : string) : (a ++ b) ++ c = a ++ (b ++ c).
Proof. induction a as [|x a IH]; simpl; [reflexivity | now rewrite IH]. Qed.

Lemma string_length_app (a b : string) :
  String.length (a ++ b) = String.length a + String.length b.
Proof. induction a as [|x a IH]; simpl; [reflexivity | now rewrite IH]. Qed.

Lemma string_app_nil_r (a : string) : a ++ EmptyString = a.
Proof. induction a as [|x a IH]; simpl; [reflexivity | now rewrite IH]. Qed.

(* ===================================================================== *)
(** ** What JSON.stringify writes is JSON *)
(* ===================================================================== *)

Lemma escape_char_body (c : ascii) (tail : string) :
  json_string_body (escape_char c ++ tail) = json_string_body tail.
Proof. each_ascii c; reflexivity. Qed.

Lemma escape_body (s rest : string) :
  json_string_body (escape s ++ String dquote rest) = Some rest.
Proof.
  induction s as [|c s IH]; simpl.
  - reflexivity.
  - now rewrite string_app_assoc, escape_char_body.
Qed.

Lemma quoted_body (s rest : string) :
  exists body,
    QuoteJSONString s ++ rest = String dquote body
    /\ json_string_body body = Some rest.
Proof.
  exists (escape s ++ String dquote rest). split.
  - unfold QuoteJSONString, quoted. simpl.
    now rewrite string_app_assoc.
  - apply escape_body.
Qed.

Lemma ends_token_number (rest : string) :
  ends_token rest = true ->
  skip_digits rest = rest /\ json_frac rest = Some rest
  /\ json_exp rest = Some rest.
Proof.
  destruct rest as [|c rest]; [now repeat split|].
  each_ascii c; simpl; try discriminate; intros _; now repeat split.
Qed.

Lemma skip_digits_uint (d : Decimal.uint) (rest : string) :
  skip_digits rest = rest ->
  skip_digits (NilEmpty.string_of_uint d ++ rest) = rest.
Proof.
  intros H. induction d; simpl; auto.
Qed.

Lemma to_uint_head (p : positive) :
  exists c d,
    NilZero.string_of_uint (Pos.to_uint p)
    = String c (NilEmpty.string_of_uint d)
    /\ is_digit c = true /\ Ascii.eqb c "0" = false
    /\ Ascii.eqb c "-" = false.
Proof.
  pose proof (Unsigned.to_uint_nonnil p) as Hnil.
  pose proof (Unsigned.to_uint_nonzero p) as Hzero.
  assert (Hnorm : Decimal.unorm (Pos.to_uint p) = Pos.to_uint p).
  { rewrite <- (DecimalPos.Unsigned.to_of (Pos.to_uint p)).
    now rewrite DecimalPos.Unsigned.of_to. }
  destruct (Pos.to_uint p) as [|d|d|d|d|d|d|d|d|d|d] eqn:E;
    try (eexists _, d; simpl; repeat split; reflexivity).
  - now elim Hnil.
  - exfalso. unfold Decimal.unorm in Hnorm.
    pose proof (nzhead_nonzero (Decimal.D0 d)) as Hnz.
    destruct (Decimal.nzhead (Decimal.D0 d)) eqn:En;
      try discriminate Hnorm.
    + injection Hnorm as <-. now elim Hzero.
    + now elim (Hnz u).
Qed.

Lemma string_of_Z_cases (z : Z) :
  string_of_Z z = "0"
  \/ exists sign c d,
       string_of_Z z = sign ++ String c (NilEmpty.string_of_uint d)
       /\ (sign = EmptyString \/ sign = "-")
       /\ is_digit c = true /\ Ascii.eqb c "0" = false
       /\ Ascii.eqb c "-" = false.
Proof.
  destruct z as [|p|p]; [now left | right | right];
    destruct (to_uint_head p) as (c & d & E & H1 & H2 & H3).
  - exists EmptyString, c, d. unfold string_of_Z. simpl. rewrite E. auto.
  - exists "-", c, d. unfold string_of_Z. simpl. rewrite E. auto 6.
Qed.

Lemma json_number_unsigned (c : ascii) (s r : string) :
  Ascii.eqb c "-" = false ->
  json_int (String c s) = Some r ->
  json_frac r = Some r -> json_exp r = Some r ->
  json_number (String c s) = Some r.
Proof.
  intros Hc Hi Hf He. unfold json_number.
  rewrite Hc, Hi. now rewrite Hf.
Qed.

Lemma json_number_negative (s r : string) :
  json_int s = Some r ->
  json_frac r = Some r -> json_exp r = Some r ->
  json_number (String "-" s) = Some r.
Proof.
  intros Hi Hf He. unfold json_number.
  change (Ascii.eqb "-" "-") with true. cbv iota.
  rewrite Hi. now rewrite Hf.
Qed.

Lemma json_number_Z (z : Z) (rest : string) :
  ends_token rest = true ->
  json_number (string_of_Z z ++ rest) = Some rest.
Proof.
  intros H. destruct (ends_token_number rest H) as (Hd & Hf & He).
  destruct (string_of_Z_cases z)
    as [-> | (sign & c & d & -> & Hs & H1 & H2 & H3)].
  - now apply json_number_unsigned.
  - assert (Hint : json_int (String c (NilEmpty.string_of_uint d ++ rest))
                   = Some rest).
    { simpl. rewrite H2, H1. now rewrite skip_digits_uint. }
    destruct Hs as [-> | ->]; simpl append.
    + now apply json_number_unsigned.
    + now apply json_number_negative.
Qed.

Lemma string_of_Z_starts (z : Z) (rest : string) :
  starts_number (string_of_Z z ++ rest) = true.
Proof.
  destruct (string_of_Z_cases z)
    as [-> | (sign & c & d & -> & [-> | ->] & H1 & H2 & H3)];
    simpl; auto.
  now rewrite H1, orb_true_r.
Qed.

Lemma json_value_S (fuel : nat) (c : ascii) (rest : string) :
  is_ws c = false ->
  json_value (S fuel) (String c rest)
  = if Ascii.eqb c "[" then
      match skip_ws rest with
      | String c' rest' =>
          if Ascii.eqb c' "]" then Some rest'
          else json_elements fuel rest
      | EmptyString => None
      end
    else if Ascii.eqb c "{" then
      match skip_ws rest with
      | String c' rest' =>
          if Ascii.eqb c' "}" then Some rest'
          else json_members fuel rest
      | EmptyString => None
      end
    else if Ascii.eqb c dquote then json_string_body rest
    else if Ascii.eqb c "t" then strip_prefix "rue" rest
    else if Ascii.eqb c "f" then strip_prefix "alse" rest
    else if Ascii.eqb c "n" then strip_prefix "ull" rest
    else json_number (String c rest).
Proof. intros H. simpl. now rewrite H. Qed.

Lemma json_elements_S (fuel : nat) (s : string) :
  json_elements (S fuel) s
  = match json_value fuel s with
    | Some r =>
        match skip_ws r with
        | String c r' =>
            if Ascii.eqb c "," then json_elements fuel r'
            else if Ascii.eqb c "]" then Some r'
            else None
        | EmptyString => None
        end
    | None => None
    end.
Proof. reflexivity. Qed.

Lemma json_members_S (fuel : nat) (k tail : string) :
  json_members (S fuel) (String dquote k)
  = match json_string_body k with
    | Some r1 =>
        match skip_ws r1 with
        | String c1 r2 =>
            if Ascii.eqb c1 ":" then
              match json_value fuel r2 with
              | Some r3 =>
                  match skip_ws r3 with
                  | String c3 r4 =>
                      if Ascii.eqb c3 "," then json_members fuel r4
                      else if Ascii.eqb c3 "}" then Some r4
                      else None
                  | EmptyString => None
                  end
              | None => None
              end
            else None
        | EmptyString => None
        end
    | None => None
    end.
Proof. reflexivity. Qed.

Lemma json_value_number (fuel : nat) (s : string) :
  starts_number s = true -> json_value (S fuel) s = json_number s.
Proof.
  destruct s as [|c s]; [discriminate|].
  each_ascii c; simpl starts_number; try discriminate; intros _;
    now rewrite json_value_S.
Qed.

Lemma json_value_array (fuel : nat) (s : string) :
  starts_value s = true ->
  json_value (S fuel) (String "[" s) = json_elements fuel s.
Proof.
  destruct s as [|c s]; [discriminate|].
  each_ascii c; simpl starts_value; try discriminate; intros _;
    now rewrite json_value_S.
Qed.

Lemma json_value_object (fuel : nat) (s : string) :
  json_value (S fuel) (String "{" (String dquote s))
  = json_members fuel (String dquote s).
Proof. now rewrite json_value_S. Qed.

Lemma stringify_array (elems : list value) :
  JSON_stringify (JArray elems)
  = (let? parts := elements_text elems in
     Normal (Some ("[" ++ join "," parts ++ "]")))%completion.
Proof. reflexivity. Qed.

Lemma stringify_object (props : list (string * value)) :
  JSON_stringify (JObject props)
  = (let? parts := members props in
     Normal (Some ("{" ++ join "," parts ++ "}")))%completion.
Proof. reflexivity. Qed.

Lemma elements_text_inv (e : value) (r : list value) (parts : list string) :
  elements_text (e :: r) = Normal parts ->
  exists t ts,
    element_text e = Normal t /\ elements_text r = Normal ts
    /\ parts = t :: ts.
Proof.
  simpl. unfold element_text.
  destruct (JSON_stringify e) as [o|err]; simpl; [|discriminate].
  destruct (elements_text r) as [ts|err]; simpl; [|discriminate].
  intros [= <-]. now exists (element_of o), ts.
Qed.

Lemma members_inv (k : string) (e : value) (r : list (string * value))
      (parts : list string) :
  members ((k, e) :: r) = Normal parts ->
  exists ms,
    members r = Normal ms
    /\ ((JSON_stringify e = Normal None /\ parts = ms)
        \/ exists t, element_text e = Normal t
                     /\ parts = (QuoteJSONString k ++ ":" ++ t) :: ms).
Proof.
  simpl. unfold element_text.
  destruct (JSON_stringify e) as [[t|]|err]; simpl; try discriminate;
    (destruct (members r) as [ms|err]; simpl; [|discriminate]);
    intros [= <-]; exists ms; (split; [reflexivity|]).
  - right. now exists t.
  - now left.
Qed.

Lemma join_one (sep p : string) : join sep [p] = p.
Proof. reflexivity. Qed.

Lemma join_cons2 (sep p q : string) (l : list string) :
  join sep (p :: q :: l) = p ++ sep ++ join sep (q :: l).
Proof. reflexivity. Qed.

Lemma starts_number_value (s : string) :
  starts_number s = true -> starts_value s = true.
Proof.
  destruct s as [|c s]; [discriminate|]. unfold starts_number, starts_value.
  intros H. rewrite <- !orb_assoc.
  rewrite !orb_true_iff in *. tauto.
Qed.

Lemma element_text_starts (v : value) (t tail : string) :
  element_text v = Normal t -> starts_value (t ++ tail) = true.
Proof.
  destruct v as [| | [] | [z| | |] | z | s | elems | props];
    try (intros [= <-]; reflexivity); try discriminate.
  - intros [= <-]. apply starts_number_value, string_of_Z_starts.
  - unfold element_text. rewrite stringify_array.
    destruct (elements_text elems) as [parts|err]; simpl; [|discriminate].
    now intros [= <-].
  - unfold element_text. rewrite stringify_object.
    destruct (members props) as [parts|err]; simpl; [|discriminate].
    now intros [= <-].
Qed.

Lemma element_text_nonempty (v : value) (t : string) :
  element_text v = Normal t -> 1 <= String.length t.
Proof.
  intros Ht. pose proof (element_text_starts v t EmptyString Ht) as H.
  rewrite string_app_nil_r in H.
  destruct t; [discriminate | simpl; lia].
Qed.

Lemma join_starts (elems : list value) (p : string) (ps : list string)
      (tail : string) :
  elements_text elems = Normal (p :: ps) ->
  starts_value (join "," (p :: ps) ++ tail) = true.
Proof.
  destruct elems as [|e r]; [discriminate|]. intros H.
  destruct (elements_text_inv e r _ H) as (t & ts & Ht & _ & [= -> ->]).
  destruct ts as [|t' ts].
  - rewrite join_one. now apply (element_text_starts e).
  - rewrite join_cons2, string_app_assoc.
    now apply (element_text_starts e).
Qed.

Lemma elements_step_comma (fuel : nat) (s r : string) :
  json_value fuel s = Some (String "," r) ->
  json_elements (S fuel) s = json_elements fuel r.
Proof. intros H. now rewrite json_elements_S, H. Qed.

Lemma elements_step_close (fuel : nat) (s r : string) :
  json_value fuel s = Some (String "]" r) ->
  json_elements (S fuel) s = Some r.
Proof. intros H. now rewrite json_elements_S, H. Qed.

Lemma elements_recognized (elems : list value) :
  Forall recognized elems ->
  forall parts, elements_text elems = Normal parts -> parts <> [] ->
  forall fuel rest,
    String.length (join "," parts) + 1 <= fuel ->
    ends_token rest = true ->
    json_elements fuel (join "," parts ++ String "]" rest) = Some rest.
Proof.
  induction 1 as [|e r He Hr IH];
    intros parts Hparts Hne fuel rest Hlen Hrest.
  - injection Hparts as <-. congruence.
  - destruct (elements_text_inv e r parts Hparts)
      as (t & ts & Ht & Hts & ->).
    destruct fuel as [|fuel]; [lia|].
    destruct ts as [|t' ts].
    + rewrite join_one in *. apply elements_step_close.
      apply (He t Ht); [lia | reflexivity].
    + rewrite join_cons2 in *. rewrite string_app_assoc.
      rewrite string_length_app in Hlen.
      change (("," ++ join "," (t' :: ts)) ++ String "]" rest)
        with (String "," (join "," (t' :: ts) ++ String "]" rest)).
      change (String.length ("," ++ join "," (t' :: ts)))
        with (S (String.length (join "," (t' :: ts)))) in Hlen.
      rewrite (elements_step_comma fuel _
                 (join "," (t' :: ts) ++ String "]" rest)).
      * apply (IH (t' :: ts) Hts); [discriminate | | assumption].
        pose proof (element_text_nonempty e t Ht). lia.
      * apply (He t Ht); [lia | reflexivity].
Qed.

Lemma member_shape (k t tail : string) :
  exists body,
    (QuoteJSONString k ++ ":" ++ t) ++ tail = String dquote body
    /\ json_string_body body = Some (String ":" (t ++ tail)).
Proof.
  destruct (quoted_body k (String ":" (t ++ tail))) as (body & E & Hbody).
  exists body. split; [|assumption].
  rewrite <- E. rewrite !string_app_assoc. reflexivity.
Qed.

Lemma members_step_comma (fuel : nat) (k t tail r : string) :
  json_value fuel (t ++ tail) = Some (String "," r) ->
  json_members (S fuel) ((QuoteJSONString k ++ ":" ++ t) ++ tail)
  = json_members fuel r.
Proof.
  intros H. destruct (member_shape k t tail) as (body & -> & Hbody).
  rewrite (json_members_S fuel body EmptyString), Hbody. simpl. now rewrite H.
Qed.

Lemma members_step_close (fuel : nat) (k t tail r : string) :
  json_value fuel (t ++ tail) = Some (String "}" r) ->
  json_members (S fuel) ((QuoteJSONString k ++ ":" ++ t) ++ tail) = Some r.
Proof.
  intros H. destruct (member_shape k t tail) as (body & -> & Hbody).
  rewrite (json_members_S fuel body EmptyString), Hbody. simpl. now rewrite H.
Qed.

Lemma members_head (props : list (string * value)) (m : string)
      (ms : list string) (tail : string) :
  members props = Normal (m :: ms) ->
  exists body, join "," (m :: ms) ++ tail = String dquote body.
Proof.
  intros E.
  assert (Hm : exists k t, m = QuoteJSONString k ++ ":" ++ t).
  { revert E. induction props as [|[k e] props IH]; [discriminate|].
    intros E. destruct (members_inv k e props _ E)
      as (ms' & Hms & [(_ & <-) | (t & _ & [= -> _])]).
    - now apply IH.
    - now exists k, t. }
  destruct Hm as (k & t & ->).
  destruct ms as [|m' ms].
  - rewrite join_one. destruct (member_shape k t tail) as (body & -> & _).
    now exists body.
  - rewrite join_cons2, string_app_assoc.
    destruct (member_shape k t (("," ++ join "," (m' :: ms)) ++ tail))
      as (body & -> & _).
    now exists body.
Qed.

Lemma members_recognized (props : list (string * value)) :
  Forall (fun kv => recognized (snd kv)) props ->
  forall parts, members props = Normal parts -> parts <> [] ->
  forall fuel rest,
    String.length (join "," parts) + 1 <= fuel ->
    ends_token rest = true ->
    json_members fuel (join "," parts ++ String "}" rest) = Some rest.
Proof.
  induction 1 as [|[k e] r He Hr IH]; intros parts Hparts Hne.
  - injection Hparts as <-. congruence.
  - simpl snd in He.
    destruct (members_inv k e r parts Hparts)
      as (ms & Hms & [(_ & ->) | (t & Ht & ->)]);
      [now apply IH|].
    intros fuel rest Hlen Hrest.
    destruct fuel as [|fuel]; [lia|].
    destruct ms as [|m' ms].
    + rewrite join_one in *. rewrite !string_length_app in Hlen.
      apply members_step_close. apply (He t Ht); [lia | reflexivity].
    + rewrite join_cons2 in *. rewrite !string_length_app in Hlen.
      change (String.length ",") with 1 in Hlen.
      rewrite string_app_assoc.
      change (("," ++ join "," (m' :: ms)) ++ String "}" rest)
        with (String "," (join "," (m' :: ms) ++ String "}" rest)).
      rewrite (members_step_comma fuel k t _
                 (join "," (m' :: ms) ++ String "}" rest)).
      * apply (IH (m' :: ms) Hms); [discriminate | lia | assumption].
      * apply (He t Ht); [lia | reflexivity].
Qed.

Lemma wrap_length (a b : ascii) (s : string) :
  String.length (String a (s ++ String b EmptyString)) = String.length s + 2.
Proof. simpl. rewrite string_length_app. simpl. lia. Qed.

(** Every text [JSON.stringify] writes is consumed whole by the
    recognizer. *)
Lemma stringify_recognized (v : value) : recognized v.
Proof.
  induction v as [| | b | n | z | s | elems IH | props IH]
    using value_induction;
    intros t Ht fuel rest Hlen Hrest.
  - injection Ht as <-.
    destruct fuel; [simpl in Hlen; lia | reflexivity].
  - injection Ht as <-.
    destruct fuel; [simpl in Hlen; lia | reflexivity].
  - destruct b; injection Ht as <-;
      (destruct fuel; [simpl in Hlen; lia | reflexivity]).
  - destruct fuel as [|fuel];
      [pose proof (element_text_nonempty (JNumber n) t Ht); lia|].
    destruct n as [z| | |]; injection Ht as <-; try reflexivity.
    rewrite json_value_number by apply string_of_Z_starts.
    now apply json_number_Z.
  - discriminate Ht.
  - destruct fuel as [|fuel];
      [pose proof (element_text_nonempty (JString s) t Ht); lia|].
    injection Ht as <-.
    destruct (quoted_body s rest) as (body & -> & Hbody).
    now rewrite json_value_S.
  - unfold element_text in Ht. rewrite stringify_array in Ht.
    destruct (elements_text elems) as [parts|err] eqn:Ep;
      simpl in Ht; [|discriminate].
    injection Ht as <-.
    change ("[" ++ join "," parts ++ "]")
      with (String "[" (join "," parts ++ String "]" EmptyString)) in *.
    rewrite wrap_length in Hlen.
    destruct fuel as [|fuel]; [lia|].
    simpl append at 1. rewrite string_app_assoc.
    change ("]" ++ rest) with (String "]" rest).
    destruct parts as [|p ps]; [reflexivity|].
    rewrite json_value_array by now apply (join_starts elems).
    apply (elements_recognized elems IH); try assumption;
      [discriminate | lia].
  - unfold element_text in Ht. rewrite stringify_object in Ht.
    destruct (members props) as [parts|err] eqn:Em;
      simpl in Ht; [|discriminate].
    injection Ht as <-.
    change ("{" ++ join "," parts ++ "}")
      with (String "{" (join "," parts ++ String "}" EmptyString)) in *.
    rewrite wrap_length in Hlen.
    destruct fuel as [|fuel]; [lia|].
    simpl append at 1. rewrite string_app_assoc.
    change ("}" ++ rest) with (String "}" rest).
    destruct parts as [|m ms]; [reflexivity|].
    destruct (members_head props m ms (String "}" rest) Em) as (body & Eb).
    pose proof (members_recognized props IH (m :: ms) Em
                  ltac:(discriminate) fuel rest ltac:(lia) Hrest) as Hm.
    rewrite Eb in *. now rewrite json_value_object.
Qed.

(** The text written for an array is a valid serialized array. *)
Lemma stringify_array_valid (elems : list value) (t : string) :
  JSON_stringify (JArray elems) = Normal (Some t) ->
  valid_serialized_array t = true.
Proof.
  intros E.
  assert (Ht : element_text (JArray elems) = Normal t)
    by (unfold element_text; now rewrite E).
  pose proof (stringify_recognized (JArray elems) t Ht
                (String.length t) EmptyString (le_n _) eq_refl) as H.
  rewrite string_app_nil_r in H.
  rewrite stringify_array in E.
  destruct (elements_text elems) as [parts|err]; simpl in E; [|discriminate].
  injection E as <-.
  unfold valid_serialized_array. rewrite H. reflexivity.
Qed.

(** [JSON.stringify] throws exactly on the values that hold a BigInt. *)
Lemma stringify_bigint (v : value) :
  (holds_bigint v = true ->
   JSON_stringify v
   = Throw (TypeError "Do not know how to serialize a BigInt"))
  /\ (holds_bigint v = false -> exists r, JSON_stringify v = Normal r).
Proof.
  induction v as [| | b | n | z | s | elems IH | props IH]
    using value_induction;
    try (split; [discriminate | intros _; eexists; reflexivity]).
  - destruct b; split; try discriminate; intros _; eexists; reflexivity.
  - destruct n; split; try discriminate; intros _; eexists; reflexivity.
  - split; [reflexivity | discriminate].
  - rewrite stringify_array. simpl holds_bigint.
    induction IH as [|e r (He1 & He2) _ IHr]; simpl.
    + split; [discriminate | intros _; eexists; reflexivity].
    + destruct (holds_bigint e) eqn:Eb; simpl.
      * split; [|discriminate]. intros _. now rewrite (He1 eq_refl).
      * destruct (He2 eq_refl) as (o & ->). simpl.
        destruct IHr as (Hr1 & Hr2). split.
        -- intros H. specialize (Hr1 H).
           destruct (elements_text r); simpl in *; [discriminate|].
           exact Hr1.
        -- intros H. destruct (Hr2 H) as (x & Hx).
           destruct (elements_text r); simpl in *; [|discriminate].
           eexists; reflexivity.
  - rewrite stringify_object. simpl holds_bigint.
    induction IH as [|[k e] r (He1 & He2) _ IHr]; simpl.
    + split; [discriminate | intros _; eexists; reflexivity].
    + simpl in He1, He2. destruct (holds_bigint e) eqn:Eb; simpl.
      * split; [|discriminate]. intros _. now rewrite (He1 eq_refl).
      * destruct (He2 eq_refl) as (o & ->). simpl.
        destruct IHr as (Hr1 & Hr2). split.
        -- intros H. specialize (Hr1 H).
           destruct (members r); simpl in *; [discriminate|].
           exact Hr1.
        -- intros H. destruct (Hr2 H) as (x & Hx).
           destruct (members r); simpl in *; [|discriminate].
           eexists; reflexivity.
Qed.

(* ===================================================================== *)
(** ** Running the handler *)
(* ===================================================================== *)

Lemma bind_lift_normal {A B : Type} (a : A) (k : A -> M B) :
  bind (lift (Normal a)) k = k a.
Proof. unfold bind, lift. now destruct (k a). Qed.

Lemma bind_lift_throw {A B : Type} (e : value) (k : A -> M B) :
  bind (lift (Throw e)) k = ([], Throw e).
Proof. reflexivity. Qed.

Lemma bind_emit {B : Type} (ev : event) (k : unit -> M B) :
  bind (emit ev) k = (ev :: trace (k tt), outcome (k tt)).
Proof. unfold bind, emit, trace, outcome. now destruct (k tt). Qed.

Lemma get_not_nullish (e : value) (k : string) :
  nullish e = false -> exists v, get e k = Normal v.
Proof. destruct e; try discriminate; intros _; eexists; reflexivity. Qed.

Lemma get_nullish (e : value) (k : string) :
  nullish e = true -> exists err, get e k = Throw err.
Proof. destruct e; try discriminate; intros _; eexists; reflexivity. Qed.

Lemma catch_clause_run (e message : value) :
  get e "message" = Normal message ->
  catch_clause e
  = ([failed_log message; respond (sync_failed message)], Normal tt).
Proof. intros H. unfold catch_clause. now rewrite H. Qed.

Lemma catch_clause_nullish (e : value) :
  nullish e = true -> exists err, catch_clause e = ([], Throw err).
Proof.
  intros H. destruct (get_nullish e "message" H) as (err & E).
  exists err. unfold catch_clause. now rewrite E.
Qed.

Lemma toStoredObservation_nullish (obs : value) :
  nullish obs = true -> exists e, toStoredObservation obs = Throw e.
Proof. destruct obs; try discriminate; intros _; eexists; reflexivity. Qed.



Lemma map_completion_length {A B : Type} (f : A -> completion B)
      (l : list A) (l' : list B) :
  map_completion f l = Normal l' -> List.length l' = List.length l.
Proof.
  revert l'. induction l as [|a l IH]; simpl; intros l'.
  - now intros [= <-].
  - destruct (f a) as [b|e]; simpl; [|discriminate].
    destruct (map_completion f l) as [bs|e]; simpl; [|discriminate].
    intros [= <-]. simpl. now rewrite (IH bs).
Qed.

Section Runs.

Variable getObservationsByIds : value -> value -> completion (list value).
Variable syncStoredObservations :
  list StoredObservation.t -> completion value.

Local Abbreviation run ids :=
  (try_catch (try_block getObservationsByIds syncStoredObservations ids)
             catch_clause).

Lemma sync_valid (ids : value) :
  invalid_ids ids = false ->
  syncObservations getObservationsByIds syncStoredObservations ids
  = (syncing_log ids :: trace (run ids), outcome (run ids)).
Proof.
  intros H. unfold syncObservations. rewrite H. now rewrite bind_emit.
Qed.

Lemma bind_read {B : Type} (ids options : value) (k : list value -> M B) :
  bind (call_getObservationsByIds getObservationsByIds ids options) k
  = match getObservationsByIds ids options with
    | Normal rows =>
        (sessionStore_getObservationsByIds ids options :: trace (k rows),
         outcome (k rows))
    | Throw e => ([sessionStore_getObservationsByIds ids options], Throw e)
    end.
Proof.
  unfold call_getObservationsByIds, bind, emit, lift, trace, outcome.
  destruct (getObservationsByIds ids options) as [rows|e]; [|reflexivity].
  now destruct (k rows).
Qed.

Lemma bind_write {B : Type} (docs : list StoredObservation.t)
      (k : value -> M B) :
  bind (call_syncStoredObservations syncStoredObservations docs) k
  = match syncStoredObservations docs with
    | Normal count =>
        (chromaSync_syncStoredObservations docs :: trace (k count),
         outcome (k count))
    | Throw e => ([chromaSync_syncStoredObservations docs], Throw e)
    end.
Proof.
  unfold call_syncStoredObservations, bind, emit, lift, trace, outcome.
  destruct (syncStoredObservations docs) as [count|e]; [|reflexivity].
  now destruct (k count).
Qed.

Lemma try_catch_throw {A : Type} (t : list event) (e : value)
      (handler : value -> M A) :
  try_catch (t, Throw e) handler
  = ((t ++ trace (handler e))%list, outcome (handler e)).
Proof. unfold try_catch, trace, outcome. now destruct (handler e). Qed.

Lemma run_lookup_throws (ids e : value) :
  getObservationsByIds ids (JObject []) = Throw e ->
  run ids
  = (read_call ids :: trace (catch_clause e), outcome (catch_clause e)).
Proof.
  intros H. unfold try_block.
  now rewrite bind_read, H, try_catch_throw.
Qed.

Lemma run_no_rows (ids : value) :
  getObservationsByIds ids (JObject []) = Normal [] ->
  run ids = ([read_call ids; respond no_observations], Normal tt).
Proof.
  intros H. unfold try_block. now rewrite bind_read, H.
Qed.

Lemma run_transform_throws (ids : value) (rows : list value) (e : value) :
  getObservationsByIds ids (JObject []) = Normal rows ->
  rows <> [] ->
  map_completion toStoredObservation rows = Throw e ->
  run ids
  = (read_call ids :: trace (catch_clause e), outcome (catch_clause e)).
Proof.
  intros H Hne Hmap. unfold try_block.
  rewrite bind_read, H. destruct rows as [|row rows]; [congruence|].
  simpl Nat.eqb. cbv iota. rewrite Hmap, bind_lift_throw.
  cbn [trace outcome fst snd]. now rewrite try_catch_throw.
Qed.

Lemma run_embedding_throws (ids : value) (rows : list value)
      (docs : list StoredObservation.t) (e : value) :
  getObservationsByIds ids (JObject []) = Normal rows ->
  rows <> [] ->
  map_completion toStoredObservation rows = Normal docs ->
  syncStoredObservations docs = Throw e ->
  run ids
  = (read_call ids :: chromaSync_syncStoredObservations docs
       :: trace (catch_clause e),
     outcome (catch_clause e)).
Proof.
  intros H Hne Hmap Hsync. unfold try_block.
  rewrite bind_read, H. destruct rows as [|row rows]; [congruence|].
  simpl Nat.eqb. cbv iota.
  rewrite Hmap, bind_lift_normal, bind_write, Hsync.
  cbn [trace outcome fst snd]. now rewrite try_catch_throw.
Qed.

Lemma run_embedded (ids : value) (rows : list value)
      (docs : list StoredObservation.t) (count : value) :
  getObservationsByIds ids (JObject []) = Normal rows ->
  rows <> [] ->
  map_completion toStoredObservation rows = Normal docs ->
  syncStoredObservations docs = Normal count ->
  run ids
  = ([read_call ids; chromaSync_syncStoredObservations docs;
      synced_log count rows; respond (success count)],
     Normal tt).
Proof.
  intros H Hne Hmap Hsync. unfold try_block.
  rewrite bind_read, H. destruct rows as [|row rows]; [congruence|].
  simpl Nat.eqb. cbv iota.
  now rewrite Hmap, bind_lift_normal, bind_write, Hsync.
Qed.

End Runs.

(* ===================================================================== *)
(** ** The handler: validation, effects and results *)
(* ===================================================================== *)

Lemma invalid_ids_spec (ids : value) :
  invalid_ids ids = false <-> exists v vs, ids = JArray (v :: vs).
Proof.
  split.
  - unfold invalid_ids.
    destruct ids as [| | b | n | z | s | [|v vs] | ps]; simpl;
      try discriminate.
    + destruct b; discriminate.
    + destruct n as [z| | |]; simpl; try discriminate;
        destruct (Z.eqb z 0); simpl; discriminate.
    + destruct (Z.eqb z 0); simpl; discriminate.
    + destruct (String.eqb s EmptyString); simpl; discriminate.
    + intros _. now exists v, vs.
  - intros (v & vs & ->). reflexivity.
Qed.

Lemma not_array_invalid (ids : value) :
  Array_isArray ids = false -> invalid_ids ids = true.
Proof.
  intros H. unfold invalid_ids. rewrite H. simpl.
  now rewrite orb_true_r.
Qed.

Lemma catch_clause_quiet (e : value) : quiet (trace (catch_clause e)).
Proof.
  destruct (nullish e) eqn:N.
  - destruct (catch_clause_nullish e N) as (err & ->).
    repeat split. intros message [].
  - destruct (get_not_nullish e "message" N) as (m & E).
    rewrite (catch_clause_run e m E). repeat split.
    intros message [H | [H | []]]; discriminate.
Qed.

Lemma catch_clause_no_call (e : value) :
  filter is_call (trace (catch_clause e)) = [].
Proof.
  destruct (nullish e) eqn:N.
  - now destruct (catch_clause_nullish e N) as (err & ->).
  - destruct (get_not_nullish e "message" N) as (m & E).
    now rewrite (catch_clause_run e m E).
Qed.

Section Claims.

Variable getObservationsByIds : value -> value -> completion (list value).
Variable syncStoredObservations :
  list StoredObservation.t -> completion value.

Local Abbreviation sync :=
  (syncObservations getObservationsByIds syncStoredObservations).
Local Abbreviation handle :=
  (handleSyncObservations getObservationsByIds syncStoredObservations).

(** The five ways a call with valid [ids] can go. *)
Lemma sync_cases (ids : value) :
  invalid_ids ids = false ->
  (exists e,
      getObservationsByIds ids (JObject []) = Throw e
      /\ sync ids = (syncing_log ids :: read_call ids
                       :: trace (catch_clause e),
                     outcome (catch_clause e)))
  \/ (getObservationsByIds ids (JObject []) = Normal []
      /\ sync ids = ([syncing_log ids; read_call ids;
                      respond no_observations], Normal tt))
  \/ (exists rows e,
         getObservationsByIds ids (JObject []) = Normal rows
         /\ rows <> []
         /\ map_completion toStoredObservation rows = Throw e
         /\ sync ids = (syncing_log ids :: read_call ids
                          :: trace (catch_clause e),
                        outcome (catch_clause e)))
  \/ (exists rows docs e,
         getObservationsByIds ids (JObject []) = Normal rows
         /\ rows <> []
         /\ map_completion toStoredObservation rows = Normal docs
         /\ syncStoredObservations docs = Throw e
         /\ sync ids = (syncing_log ids :: read_call ids
                          :: chromaSync_syncStoredObservations docs
                          :: trace (catch_clause e),
                        outcome (catch_clause e)))
  \/ (exists rows docs count,
         getObservationsByIds ids (JObject []) = Normal rows
         /\ rows <> []
         /\ map_completion toStoredObservation rows = Normal docs
         /\ syncStoredObservations docs = Normal count
         /\ sync ids = ([syncing_log ids; read_call ids;
                         chromaSync_syncStoredObservations docs;
                         synced_log count rows; respond (success count)],
                        Normal tt)).
Proof.
  intros Hvalid. rewrite (sync_valid _ _ ids Hvalid).
  destruct (getObservationsByIds ids (JObject [])) as [rows|e] eqn:Hget.
  - destruct rows as [|row rows].
    + right; left. split; [reflexivity|].
      now rewrite (run_no_rows _ _ ids Hget).
    + assert (Hne : row :: rows <> []) by discriminate.
      destruct (map_completion toStoredObservation (row :: rows))
        as [docs|e] eqn:Hmap.
      * destruct (syncStoredObservations docs) as [count|e] eqn:Hsync.
        -- do 4 right. exists (row :: rows), docs, count.
           repeat split; try assumption.
           now rewrite (run_embedded _ _ ids _ docs count Hget Hne Hmap Hsync).
        -- do 3 right; left. exists (row :: rows), docs, e.
           repeat split; try assumption.
           now rewrite
             (run_embedding_throws _ _ ids _ docs e Hget Hne Hmap Hsync).
      * do 2 right; left. exists (row :: rows), e.
        repeat split; try assumption.
        now rewrite (run_transform_throws _ _ ids _ e Hget Hne Hmap).
  - left. exists e. split; [reflexivity|].
    now rewrite (run_lookup_throws _ _ ids e Hget).
Qed.

(** C2. When [ids] is missing from the body, is not an array, or is the
    empty array, the handler answers [badRequest] and does nothing else:
    neither the store nor Chroma is called. *)
Theorem invalid_input_bad_request (body ids : value) :
  get body "ids" = Normal ids ->
  ids = JUndefined \/ Array_isArray ids = false \/ ids = JArray [] ->
  handle body = ([respond (badRequest "ids array is required")], Normal tt)
  /\ reads (trace (handle body)) = 0
  /\ writes (trace (handle body)) = 0.
Proof.
  intros Hget Hbad.
  assert (Hinv : invalid_ids ids = true).
  { destruct Hbad as [H | [H | H]].
    - now rewrite H.
    - now apply not_array_invalid.
    - now rewrite H. }
  assert (Hrun : handle body
                 = ([respond (badRequest "ids array is required")], Normal tt)).
  { unfold handleSyncObservations.
    rewrite Hget, bind_lift_normal.
    unfold syncObservations. now rewrite Hinv. }
  rewrite Hrun. repeat split.
Qed.

(** C3, amended. A call that passes validation reads the store exactly
    once and calls Chroma at most once: exactly once when the lookup
    returned at least one row and every row was transformed into a
    document, not at all when the lookup threw, returned no row, or the
    transformation of a row threw.  The read comes first, and the call
    makes no other call to a collaborator. *)
Theorem one_read_at_most_one_write (ids : value) :
  invalid_ids ids = false ->
  reads (trace (sync ids)) = 1
  /\ writes (trace (sync ids)) <= 1
  /\ (writes (trace (sync ids)) = 1 <->
      exists rows docs,
        getObservationsByIds ids (JObject []) = Normal rows
        /\ rows <> []
        /\ map_completion toStoredObservation rows = Normal docs)
  /\ (filter is_call (trace (sync ids)) = [read_call ids]
      \/ exists docs,
           filter is_call (trace (sync ids))
           = [read_call ids; chromaSync_syncStoredObservations docs]).
Proof.
  intros Hvalid. unfold reads, writes.
  destruct (sync_cases ids Hvalid)
    as [(e & Hget & ->)
       | [(Hget & ->)
         | [(rows & e & Hget & Hne & Hmap & ->)
           | [(rows & docs & e & Hget & Hne & Hmap & Hsync & ->)
             | (rows & docs & count & Hget & Hne & Hmap & Hsync & ->)]]]];
    cbn [trace fst filter is_read is_write is_call orb
           syncing_log read_call synced_log];
    try (destruct (catch_clause_quiet e) as (-> & -> & _));
    try rewrite (catch_clause_no_call e);
    simpl List.length.
  - repeat split; try lia; [|now left].
    intros (rows & docs & Hget' & _). congruence.
  - repeat split; try lia; [|now left].
    intros (rows & docs & Hget' & Hne & _). congruence.
  - repeat split; try lia; [|now left].
    intros (rows' & docs & Hget' & _ & Hmap'). congruence.
  - repeat split; try lia; [|right; now exists docs].
    intros _. now exists rows, docs.
  - repeat split; try lia; [|right; now exists docs].
    intros _. now exists rows, docs.
Qed.

(** C6. When the lookup returns no row for valid [ids], the handler
    answers success with [embeddedCount] 0 and a message, and Chroma is not
    called. *)
Theorem zero_records_success (ids : value) :
  invalid_ids ids = false ->
  getObservationsByIds ids (JObject []) = Normal [] ->
  sync ids = ([syncing_log ids; read_call ids; respond no_observations],
              Normal tt)
  /\ responses (trace (sync ids)) = [no_observations]
  /\ writes (trace (sync ids)) = 0.
Proof.
  intros Hvalid Hget.
  assert (E : sync ids = ([syncing_log ids; read_call ids;
                           respond no_observations], Normal tt)).
  { rewrite (sync_valid _ _ ids Hvalid).
    now rewrite (run_no_rows _ _ ids Hget). }
  rewrite E. repeat split.
Qed.

(** C7, amended. When the lookup throws anything but [null] or
    [undefined], the handler logs the failure and answers [serverError]
    with the message of what was thrown; Chroma is not called and the
    handler itself ends normally. *)
Theorem lookup_failure_reported (ids e : value) :
  invalid_ids ids = false ->
  getObservationsByIds ids (JObject []) = Throw e ->
  nullish e = false ->
  exists message,
    get e "message" = Normal message
    /\ sync ids = ([syncing_log ids; read_call ids; failed_log message;
                    respond (sync_failed message)], Normal tt)
    /\ responses (trace (sync ids)) = [sync_failed message]
    /\ writes (trace (sync ids)) = 0.
Proof.
  intros Hvalid Hget He.
  destruct (get_not_nullish e "message" He) as (message & Hmsg).
  exists message. split; [assumption|].
  assert (E : sync ids = ([syncing_log ids; read_call ids;
                           failed_log message;
                           respond (sync_failed message)], Normal tt)).
  { rewrite (sync_valid _ _ ids Hvalid).
    rewrite (run_lookup_throws _ _ ids e Hget).
    now rewrite (catch_clause_run e message Hmsg). }
  rewrite E. repeat split.
Qed.


(** C10. Validation looks only at whether [ids] is a non-empty array:
    every non-empty array passes, whatever its elements, and is handed to
    the lookup as it is, in the one read of the call; no [badRequest] is
    answered. *)
Theorem nonempty_array_forwarded (v : value) (vs : list value) :
  (forall ids, invalid_ids ids = false <-> exists v' vs', ids = JArray (v' :: vs'))
  /\ invalid_ids (JArray (v :: vs)) = false
  /\ filter is_read (trace (sync (JArray (v :: vs))))
     = [sessionStore_getObservationsByIds (JArray (v :: vs)) (JObject [])]
  /\ (exists t, trace (sync (JArray (v :: vs)))
                = syncing_log (JArray (v :: vs))
                    :: sessionStore_getObservationsByIds
                         (JArray (v :: vs)) (JObject [])
                    :: t)
  /\ forall message,
       ~ In (respond (badRequest message)) (trace (sync (JArray (v :: vs)))).
Proof.
  split; [exact invalid_ids_spec|]. split; [reflexivity|].
  assert (Hvalid : invalid_ids (JArray (v :: vs)) = false) by reflexivity.
  destruct (sync_cases _ Hvalid)
    as [(e & Hget & ->)
       | [(Hget & ->)
         | [(rows & e & Hget & Hne & Hmap & ->)
           | [(rows & docs & e & Hget & Hne & Hmap & Hsync & ->)
             | (rows & docs & count & Hget & Hne & Hmap & Hsync & ->)]]]];
    cbn [trace fst filter is_read syncing_log read_call synced_log];
    try (destruct (catch_clause_quiet e) as (Hr & _ & Hb); rewrite ?Hr);
    (split; [reflexivity|]); (split; [eexists; reflexivity|]);
    intros message Hin; simpl in Hin;
    repeat (destruct Hin as [Hin | Hin]; [discriminate Hin|]);
    try contradiction; try (now apply (Hb message)).
Qed.

End Claims.

(* ===================================================================== *)
(** ** The transformation of a row into a document *)
(* ===================================================================== *)

Lemma toStoredObservation_object (props : list (string * value)) :
  toStoredObservation (JObject props)
  = (let? facts := normalize_collection (lookup "facts" props) in
     let? concepts := normalize_collection (lookup "concepts" props) in
     let? files_read := normalize_collection (lookup "files_read" props) in
     let? files_modified :=
       normalize_collection (lookup "files_modified" props) in
     Normal {|
       StoredObservation.id := lookup "id" props;
       StoredObservation.memory_session_id :=
         lookup "memory_session_id" props;
       StoredObservation.project := lookup "project" props;
       StoredObservation.text := JNull;
       StoredObservation.type := lookup "type" props;
       StoredObservation.title := lookup "title" props;
       StoredObservation.subtitle := lookup "subtitle" props;
       StoredObservation.facts := facts;
       StoredObservation.narrative := lookup "narrative" props;
       StoredObservation.concepts := concepts;
       StoredObservation.files_read := files_read;
       StoredObservation.files_modified := files_modified;
       StoredObservation.prompt_number :=
         js_or (lookup "prompt_number" props) (JNumber (Finite 0));
       StoredObservation.discovery_tokens :=
         js_or (lookup "discovery_tokens" props) (JNumber (Finite 0));
       StoredObservation.created_at := lookup "created_at" props;
       StoredObservation.created_at_epoch :=
         lookup "created_at_epoch" props
     |})%completion.
Proof. reflexivity. Qed.

(** The document of an object row, when there is one. *)
Lemma toStoredObservation_document (props : list (string * value))
      (d : StoredObservation.t) :
  toStoredObservation (JObject props) = Normal d ->
  normalize_collection (lookup "facts" props)
  = Normal (StoredObservation.facts d)
  /\ normalize_collection (lookup "concepts" props)
     = Normal (StoredObservation.concepts d)
  /\ normalize_collection (lookup "files_read" props)
     = Normal (StoredObservation.files_read d)
  /\ normalize_collection (lookup "files_modified" props)
     = Normal (StoredObservation.files_modified d)
  /\ StoredObservation.text d = JNull
  /\ StoredObservation.prompt_number d
     = js_or (lookup "prompt_number" props) (JNumber (Finite 0))
  /\ StoredObservation.discovery_tokens d
     = js_or (lookup "discovery_tokens" props) (JNumber (Finite 0)).
Proof.
  rewrite toStoredObservation_object.
  destruct (normalize_collection (lookup "facts" props)); simpl;
    [|discriminate].
  destruct (normalize_collection (lookup "concepts" props)); simpl;
    [|discriminate].
  destruct (normalize_collection (lookup "files_read" props)); simpl;
    [|discriminate].
  destruct (normalize_collection (lookup "files_modified" props)); simpl;
    [|discriminate].
  intros [= <-]. now repeat split.
Qed.

Lemma field_normalized (props : list (string * value))
      (d : StoredObservation.t) (name : string)
      (field : StoredObservation.t -> value) :
  toStoredObservation (JObject props) = Normal d ->
  In (name, field) collection_fields ->
  normalize_collection (lookup name props) = Normal (field d).
Proof.
  intros Hd Hin.
  destruct (toStoredObservation_document props d Hd)
    as (H1 & H2 & H3 & H4 & _).
  repeat (destruct Hin as [[= <- <-] | Hin]; [assumption|]).
  destruct Hin.
Qed.

Lemma stringify_undefined (v : value) :
  JSON_stringify v = Normal None -> v = JUndefined.
Proof.
  destruct v as [| | [] | [z| | |] | z | s | elems | props];
    try discriminate; try reflexivity.
  - rewrite stringify_array.
    destruct (elements_text elems); discriminate.
  - rewrite stringify_object.
    destruct (members props); discriminate.
Qed.

Lemma js_or_defined (x : value) : js_or x (JArray []) <> JUndefined.
Proof.
  unfold js_or. destruct (truthy x) eqn:E; [|discriminate].
  intros ->. discriminate E.
Qed.

Lemma normalize_collection_text (x y : value) :
  normalize_collection x = Normal y -> exists t, y = JString t.
Proof.
  unfold normalize_collection.
  destruct (typeof_string x) eqn:E.
  - intros [= <-]. destruct x; try discriminate E. now eexists.
  - unfold JSON_stringify_value.
    destruct (JSON_stringify (js_or x (JArray []))) as [[t|]|err] eqn:Es;
      simpl; try discriminate.
    + intros [= <-]. now exists t.
    + now elim (js_or_defined x (stringify_undefined _ Es)).
Qed.

Lemma normalize_collection_string (x : value) :
  typeof_string x = true -> normalize_collection x = Normal x.
Proof. intros H. unfold normalize_collection. now rewrite H. Qed.

Lemma normalize_collection_falsy (x : value) :
  typeof_string x = false -> truthy x = false ->
  normalize_collection x = Normal (JString "[]").
Proof.
  intros H1 H2. unfold normalize_collection, js_or. now rewrite H1, H2.
Qed.

Lemma nullish_falsy (x : value) :
  nullish x = true -> typeof_string x = false /\ truthy x = false.
Proof. destruct x; try discriminate; now split. Qed.

Lemma normalize_collection_array (elems : list value) (y : value) :
  normalize_collection (JArray elems) = Normal y ->
  exists t,
    JSON_stringify (JArray elems) = Normal (Some t)
    /\ y = JString t
    /\ valid_serialized_array t = true.
Proof.
  unfold normalize_collection, js_or, JSON_stringify_value.
  cbn [typeof_string truthy].
  destruct (JSON_stringify (JArray elems)) as [[t|]|err] eqn:E;
    simpl; try discriminate.
  - intros [= <-]. exists t. repeat split.
    now apply (stringify_array_valid elems).
  - apply stringify_undefined in E. discriminate E.
Qed.

Lemma normalize_collection_idempotent (x y : value) :
  normalize_collection x = Normal y -> normalize_collection y = Normal y.
Proof.
  intros H. destruct (normalize_collection_text x y H) as (t & ->).
  reflexivity.
Qed.

(** Line 63 gives a field exactly for the values that are normalizable,
    and throws the [TypeError] of [JSON.stringify] for the others. *)
Lemma normalize_collection_succeeds (x : value) :
  (normalizable x = true -> exists y, normalize_collection x = Normal y)
  /\ (normalizable x = false ->
      normalize_collection x
      = Throw (TypeError "Do not know how to serialize a BigInt")).
Proof.
  unfold normalizable, normalize_collection, js_or.
  destruct (typeof_string x); simpl.
  - split; [intros _; now eexists | discriminate].
  - destruct (truthy x); simpl.
    + unfold JSON_stringify_value.
      destruct (stringify_bigint x) as (H1 & H2).
      destruct (holds_bigint x); simpl.
      * split; [discriminate|]. intros _. now rewrite (H1 eq_refl).
      * split; [|discriminate]. intros _.
        destruct (H2 eq_refl) as (r & ->). simpl. now eexists.
    + split; [intros _; now eexists | discriminate].
Qed.

Lemma normalize_collection_throws (x e : value) :
  normalize_collection x = Throw e ->
  e = TypeError "Do not know how to serialize a BigInt".
Proof.
  destruct (normalize_collection_succeeds x) as (H1 & H2).
  destruct (normalizable x).
  - destruct (H1 eq_refl) as (y & ->). discriminate.
  - rewrite (H2 eq_refl). now intros [= <-].
Qed.

(** An object row has a document exactly when it is transformable. *)
Lemma toStoredObservation_succeeds (props : list (string * value)) :
  (transformable props = true ->
   exists d, toStoredObservation (JObject props) = Normal d)
  /\ (transformable props = false ->
      toStoredObservation (JObject props)
      = Throw (TypeError "Do not know how to serialize a BigInt")).
Proof.
  rewrite toStoredObservation_object.
  unfold transformable, collection_names. cbn [forallb].
  destruct (normalize_collection_succeeds (lookup "facts" props))
    as (A1 & A2).
  destruct (normalize_collection_succeeds (lookup "concepts" props))
    as (B1 & B2).
  destruct (normalize_collection_succeeds (lookup "files_read" props))
    as (C1 & C2).
  destruct (normalize_collection_succeeds (lookup "files_modified" props))
    as (D1 & D2).
  destruct (normalizable (lookup "facts" props));
    [destruct (A1 eq_refl) as (a & ->)
    | rewrite (A2 eq_refl); simpl; split; [discriminate | reflexivity]].
  destruct (normalizable (lookup "concepts" props));
    [destruct (B1 eq_refl) as (b & ->)
    | rewrite (B2 eq_refl); simpl; split; [discriminate | reflexivity]].
  destruct (normalizable (lookup "files_read" props));
    [destruct (C1 eq_refl) as (c & ->)
    | rewrite (C2 eq_refl); simpl; split; [discriminate | reflexivity]].
  destruct (normalizable (lookup "files_modified" props));
    [destruct (D1 eq_refl) as (d & ->)
    | rewrite (D2 eq_refl); simpl; split; [discriminate | reflexivity]].
  simpl. split; [intros _; now eexists | discriminate].
Qed.

Lemma number_text_not_array (s : string) :
  starts_number s = true -> valid_serialized_array s = false.
Proof.
  destruct s as [|c s]; [discriminate|].
  each_ascii c; simpl starts_number; try discriminate; reflexivity.
Qed.

(** When the normalized field is valid serialized-array text. *)
Lemma normalize_collection_valid (x y : value) :
  normalize_collection x = Normal y ->
  serialized_array_field y = true <->
  Array_isArray x = true
  \/ (typeof_string x = false /\ truthy x = false)
  \/ serialized_array_field x = true.
Proof.
  intros Hy. split.
  - destruct x as [| | [] | [z| | |] | z | s | elems | props];
      try (intros _; right; left; now split);
      try (injection Hy as <-; discriminate).
    + revert Hy. unfold normalize_collection, js_or.
      cbn [typeof_string truthy].
      destruct (Z.eqb z 0) eqn:Ez; cbn [negb].
      * intros _ _. right; left. now split.
      * intros [= <-]. cbn [serialized_array_field].
        rewrite <- (string_app_nil_r (string_of_Z z)).
        now rewrite number_text_not_array by apply string_of_Z_starts.
    + revert Hy. unfold normalize_collection, js_or.
      cbn [typeof_string truthy].
      destruct (Z.eqb z 0) eqn:Ez; cbn [negb].
      * intros _ _. right; left. now split.
      * discriminate.
    + injection Hy as <-. intros H. right; right. exact H.
    + intros _. now left.
    + revert Hy. unfold normalize_collection, js_or, JSON_stringify_value.
      cbn [typeof_string truthy]. rewrite stringify_object.
      destruct (members props); simpl; [|discriminate].
      intros [= <-]. discriminate.
  - intros [H | [(H1 & H2) | H]].
    + destruct x; try discriminate H.
      destruct (normalize_collection_array elems y Hy) as (t & _ & -> & Hv).
      exact Hv.
    + rewrite (normalize_collection_falsy x H1 H2) in Hy.
      now injection Hy as <-.
    + destruct x; try discriminate H. now injection Hy as <-.
Qed.

(** C1, amended. In the document built from a row, each of the four
    collection fields is text, never a structured value, [null] or
    [undefined]: a string is passed through unchanged, whatever it holds;
    anything else is replaced by [JSON.stringify(x || [])], which is the
    JSON-array text of an array and [[]] for an absent or otherwise falsy
    value.  The field is valid serialized-array text exactly when the row
    held an array, nothing (or another falsy value that is not a string),
    or a string that is valid serialized-array text. *)
Theorem collection_fields_text (props : list (string * value))
        (d : StoredObservation.t) (name : string)
        (field : StoredObservation.t -> value) :
  toStoredObservation (JObject props) = Normal d ->
  In (name, field) collection_fields ->
  (exists t, field d = JString t)
  /\ (typeof_string (lookup name props) = true ->
      field d = lookup name props)
  /\ (typeof_string (lookup name props) = false ->
      JSON_stringify_value (js_or (lookup name props) (JArray []))
      = Normal (field d))
  /\ (nullish (lookup name props) = true -> field d = JString "[]")
  /\ (typeof_string (lookup name props) = false ->
      truthy (lookup name props) = false -> field d = JString "[]")
  /\ (forall elems, lookup name props = JArray elems ->
      exists t, JSON_stringify (JArray elems) = Normal (Some t)
                /\ field d = JString t)
  /\ (nullish (lookup name props) = true ->
      serialized_array_field (field d) = true)
  /\ (serialized_array_field (field d) = true <->
      Array_isArray (lookup name props) = true
      \/ (typeof_string (lookup name props) = false
          /\ truthy (lookup name props) = false)
      \/ serialized_array_field (lookup name props) = true).
Proof.
  intros Hd Hin.
  pose proof (field_normalized props d name field Hd Hin) as Hf.
  revert Hf. generalize (field d). set (x := lookup name props).
  intros y Hy.
  split; [now apply (normalize_collection_text x)|].
  split; [intros H; rewrite (normalize_collection_string x H) in Hy;
          now injection Hy|].
  split; [intros H; unfold normalize_collection in Hy; now rewrite H in Hy|].
  assert (Hfalsy : typeof_string x = false -> truthy x = false ->
                   y = JString "[]").
  { intros H1 H2. rewrite (normalize_collection_falsy x H1 H2) in Hy.
    now injection Hy. }
  split; [intros H; destruct (nullish_falsy x H); now apply Hfalsy|].
  split; [exact Hfalsy|].
  split.
  - intros elems E. rewrite E in Hy.
    destruct (normalize_collection_array elems y Hy) as (t & Et & -> & _).
    now exists t.
  - split.
    + intros H. destruct (nullish_falsy x H) as (H1 & H2).
      now rewrite (Hfalsy H1 H2).
    + now apply normalize_collection_valid.
Qed.




(* ===================================================================== *)
(** ** Examples *)
(* ===================================================================== *)

(** C1, as stated, fails on a row whose [facts] is a string that is not
    the text of an array, and on a row whose [facts] is an object: the
    string is passed through, the object is written as the text of an
    object, and neither field is valid serialized-array text. *)
Lemma collection_field_not_array_text :
  field_of StoredObservation.facts
    (toStoredObservation
       (JObject [("id", JNumber (Finite 1)); ("facts", JString "hello")]))
  = Normal (JString "hello")
  /\ serialized_array_field (JString "hello") = false
  /\ field_of StoredObservation.facts
       (toStoredObservation
          (JObject [("id", JNumber (Finite 2));
                    ("facts", JObject [("a", JNumber (Finite 1))])]))
     = Normal (JString ("{" ++ quoted "a" ++ ":1}"))
  /\ serialized_array_field (JString ("{" ++ quoted "a" ++ ":1}")) = false
  /\ ~ (forall props d name field,
          toStoredObservation (JObject props) = Normal d ->
          In (name, field) collection_fields ->
          serialized_array_field (field d) = true).
Proof.
  repeat (split; [reflexivity|]).
  intros H.
  specialize (H [("id", JNumber (Finite 1)); ("facts", JString "hello")]
                _ "facts" StoredObservation.facts
                (toStoredObservation_object _) (or_introl eq_refl)).
  discriminate H.
Qed.

(** C3, as stated, fails on valid [ids] for which the store has no row:
    one read, no write. *)
Lemma zero_rows_no_write :
  invalid_ids example_ids = false
  /\ reads (trace (syncObservations example_store_empty example_chroma_all
                     example_ids)) = 1
  /\ writes (trace (syncObservations example_store_empty example_chroma_all
                      example_ids)) = 0
  /\ ~ (forall getObservationsByIds syncStoredObservations ids,
          invalid_ids ids = false ->
          reads (trace (syncObservations getObservationsByIds
                          syncStoredObservations ids)) = 1
          /\ writes (trace (syncObservations getObservationsByIds
                              syncStoredObservations ids)) = 1).
Proof.
  repeat split.
  intros H.
  destruct (H example_store_empty example_chroma_all example_ids eq_refl)
    as (_ & Hw).
  discriminate Hw.
Qed.

(** C7, as stated, fails when what the lookup throws is [null]: the catch
    clause reads [e.message], that read itself throws, and the exception
    leaves the handler, which has given no answer. *)
Lemma lookup_throws_null_escapes :
  example_store_throws_null example_ids (JObject []) = Throw JNull
  /\ throws (outcome (syncObservations example_store_throws_null
                        example_chroma_all example_ids)) = true
  /\ responses (trace (syncObservations example_store_throws_null
                         example_chroma_all example_ids)) = []
  /\ ~ (forall getObservationsByIds syncStoredObservations ids e,
          invalid_ids ids = false ->
          getObservationsByIds ids (JObject []) = Throw e ->
          outcome (syncObservations getObservationsByIds
                     syncStoredObservations ids) = Normal tt).
Proof.
  repeat (split; [reflexivity|]).
  intros H.
  specialize (H example_store_throws_null example_chroma_all example_ids
                JNull eq_refl eq_refl).
  discriminate H.
Qed.

(** The same run, spelled out. *)
Example thrown_null_escapes :
  syncObservations (fun _ _ => Throw JNull) example_chroma_all example_ids
  = ([syncing_log example_ids; read_call example_ids],
     Throw (TypeError "Cannot read properties of null (reading 'message')")).
Proof. reflexivity. Qed.


(** An error thrown by Chroma is answered like one thrown by the store. *)
Example embedding_failure_reported :
  responses
    (trace (syncObservations example_store_five
              (fun _ => Throw (Error_object "chroma is down"))
              example_ids))
  = [serverError "Sync failed: chroma is down"].
Proof. reflexivity. Qed.

(** The end-to-end example: of the ids 1, 2 and 3 the store knows 1 and 3,
    Chroma embeds both, and the answer is a success with count 2. *)
Example end_to_end :
  responses
    (trace (handleSyncObservations example_store_1_3 example_chroma_all
              (JObject [("ids", JArray [JNumber (Finite 1);
                                        JNumber (Finite 2);
                                        JNumber (Finite 3)])])))
  = [success (JNumber (Finite 2))].
Proof. reflexivity. Qed.

Lemma collection_fields_text_witness :
  (exists t, StoredObservation.facts example_doc = JString t)
  /\ serialized_array_field (StoredObservation.facts example_doc) = true.
Proof.
  destruct (collection_fields_text (example_props 1) example_doc "facts"
              StoredObservation.facts eq_refl (or_introl eq_refl))
    as (Htext & _ & _ & _ & _ & _ & _ & Hvalid).
  split; [exact Htext|]. apply Hvalid. left. reflexivity.
Defined.

Lemma invalid_input_bad_request_witness :
  get (JObject []) "ids" = Normal JUndefined
  /\ handleSyncObservations example_store_five example_chroma_all (JObject [])
     = ([respond (badRequest "ids array is required")], Normal tt).
Proof.
  split; [reflexivity|].
  apply (invalid_input_bad_request example_store_five example_chroma_all
           (JObject []) JUndefined); [reflexivity | left; reflexivity].
Defined.

Lemma one_read_at_most_one_write_witness :
  invalid_ids example_ids = false
  /\ reads (trace (syncObservations example_store_five example_chroma_three
                     example_ids)) = 1
  /\ writes (trace (syncObservations example_store_five example_chroma_three
                      example_ids)) <= 1.
Proof.
  split; [reflexivity|].
  destruct (one_read_at_most_one_write example_store_five
              example_chroma_three example_ids eq_refl) as (Hr & Hw & _).
  split; [exact Hr | exact Hw].
Defined.

Lemma zero_records_success_witness :
  invalid_ids example_ids = false
  /\ responses (trace (syncObservations example_store_empty
                         example_chroma_all example_ids))
     = [no_observations]
  /\ writes (trace (syncObservations example_store_empty
                      example_chroma_all example_ids)) = 0.
Proof.
  split; [reflexivity|].
  apply (zero_records_success example_store_empty example_chroma_all
           example_ids); reflexivity.
Defined.

Lemma lookup_failure_reported_witness :
  invalid_ids example_ids = false
  /\ nullish (Error_object "database is locked") = false
  /\ exists message,
       get (Error_object "database is locked") "message" = Normal message
       /\ responses (trace (syncObservations example_store_locked
                              example_chroma_all example_ids))
          = [sync_failed message]
       /\ writes (trace (syncObservations example_store_locked
                           example_chroma_all example_ids)) = 0.
Proof.
  split; [reflexivity|]. split; [reflexivity|].
  destruct (lookup_failure_reported example_store_locked example_chroma_all
              example_ids (Error_object "database is locked")
              eq_refl eq_refl eq_refl) as (message & Hm & _ & Hr & Hw).
  exists message. split; [exact Hm|]. split; [exact Hr | exact Hw].
Defined.





(* ===================================================================== *)
(** ** The other paths of the handler *)
(* ===================================================================== *)

Lemma map_completion_Forall2 {A B : Type} (f : A -> completion B)
      (l : list A) (l' : list B) :
  map_completion f l = Normal l' ->
  Forall2 (fun a b => f a = Normal b) l l'.
Proof.
  revert l'. induction l as [|a l IH]; simpl; intros l'.
  - intros [= <-]. constructor.
  - destruct (f a) as [b|e] eqn:Ea; simpl; [|discriminate].
    destruct (map_completion f l) as [bs|e]; simpl; [|discriminate].
    intros [= <-]. constructor; [assumption | now apply IH].
Qed.

Lemma map_completion_in {A B : Type} (f : A -> completion B)
      (l : list A) (l' : list B) :
  map_completion f l = Normal l' ->
  forall b, In b l' -> exists a, In a l /\ f a = Normal b.
Proof.
  intros H. apply map_completion_Forall2 in H.
  induction H as [|a b l l' Hab _ IH]; intros b' Hin; [destruct Hin|].
  destruct Hin as [<- | Hin].
  - exists a. split; [now left | assumption].
  - destruct (IH b' Hin) as (a' & Ha' & Hf).
    exists a'. split; [now right | assumption].
Qed.

Lemma map_completion_throws {A B : Type} (f : A -> completion B)
      (l : list A) (e : value) :
  map_completion f l = Throw e -> exists a, In a l /\ f a = Throw e.
Proof.
  induction l as [|a l IH]; simpl; [discriminate|].
  destruct (f a) as [b|e'] eqn:Ea; simpl.
  - destruct (map_completion f l) as [bs|e'']; simpl; [discriminate|].
    intros [= <-]. destruct (IH eq_refl) as (a' & Hin & Ha').
    exists a'. split; [now right | assumption].
  - intros [= <-]. exists a. split; [now left | assumption].
Qed.

Lemma toStoredObservation_throws (row e : value) :
  toStoredObservation row = Throw e ->
  exists message, e = TypeError message.
Proof.
  destruct row as [| | b | n | z | s | elems | props]; try discriminate;
    try (intros [= <-]; eexists; reflexivity).
  destruct (toStoredObservation_succeeds props) as (H1 & H2).
  destruct (transformable props).
  - destruct (H1 eq_refl) as (d & ->). discriminate.
  - rewrite (H2 eq_refl). intros [= <-]. now eexists.
Qed.

Lemma TypeError_message (message : string) :
  get (TypeError message) "message" = Normal (JString message).
Proof. reflexivity. Qed.

Lemma write_in_trace (docs : list StoredObservation.t) (t : list event) :
  In (chromaSync_syncStoredObservations docs) t -> filter is_write t <> [].
Proof.
  intros Hin E.
  assert (H : In (chromaSync_syncStoredObservations docs)
                 (filter is_write t)) by now apply filter_In.
  rewrite E in H. destruct H.
Qed.

Lemma catch_clause_error (e : value) :
  nullish e = false ->
  exists message,
    catch_clause e
    = ([failed_log message; respond (sync_failed message)], Normal tt).
Proof.
  intros H. destruct (get_not_nullish e "message" H) as (message & E).
  exists message. now apply catch_clause_run.
Qed.

Lemma catch_clause_answers (e : value) (r : response) :
  In (respond r) (trace (catch_clause e)) ->
  exists message, r = sync_failed message.
Proof.
  destruct (nullish e) eqn:N.
  - destruct (catch_clause_nullish e N) as (err & ->). intros [].
  - destruct (catch_clause_error e N) as (message & ->).
    intros [H | [H | []]]; [discriminate H|].
    injection H as <-. now exists message.
Qed.

Lemma toStoredObservation_id (row : value) (d : StoredObservation.t) :
  toStoredObservation row = Normal d ->
  get row "id" = Normal (StoredObservation.id d).
Proof.
  destruct row as [| | b | n | z | s | elems | props]; try discriminate;
    try (now intros [= <-]).
  rewrite toStoredObservation_object.
  destruct (normalize_collection (lookup "facts" props)); simpl;
    [|discriminate].
  destruct (normalize_collection (lookup "concepts" props)); simpl;
    [|discriminate].
  destruct (normalize_collection (lookup "files_read" props)); simpl;
    [|discriminate].
  destruct (normalize_collection (lookup "files_modified" props)); simpl;
    [|discriminate].
  now intros [= <-].
Qed.

Lemma js_or_zero (x : value) :
  truthy (js_or x (JNumber (Finite 0))) = true
  \/ js_or x (JNumber (Finite 0)) = JNumber (Finite 0).
Proof. unfold js_or. destruct (truthy x) eqn:E; auto. Qed.

Lemma toStoredObservation_normalized (row : value)
      (d : StoredObservation.t) :
  toStoredObservation row = Normal d ->
  StoredObservation.text d = JNull
  /\ (forall name field,
         In (name, field) collection_fields -> exists t, field d = JString t)
  /\ (truthy (StoredObservation.prompt_number d) = true
      \/ StoredObservation.prompt_number d = JNumber (Finite 0))
  /\ (truthy (StoredObservation.discovery_tokens d) = true
      \/ StoredObservation.discovery_tokens d = JNumber (Finite 0)).
Proof.
  destruct row as [| | b | n | z | s | elems | props]; try discriminate;
    try (intros [= <-];
         (split; [reflexivity|]);
         (split;
          [intros name field Hin;
           repeat (destruct Hin as [[= <- <-] | Hin];
                   [eexists; reflexivity|]);
           destruct Hin
          | split; apply js_or_zero])).
  intros Hd.
  destruct (toStoredObservation_document props d Hd)
    as (_ & _ & _ & _ & Htext & -> & ->).
  split; [assumption|]. split; [|split; apply js_or_zero].
  intros name field Hin.
  apply (normalize_collection_text (lookup name props)).
  now apply field_normalized.
Qed.

Section OtherPaths.

Variable getObservationsByIds : value -> value -> completion (list value).
Variable syncStoredObservations :
  list StoredObservation.t -> completion value.

Local Abbreviation sync :=
  (syncObservations getObservationsByIds syncStoredObservations).
Local Abbreviation handle :=
  (handleSyncObservations getObservationsByIds syncStoredObservations).

(** X1. When the call to Chroma throws (or its promise is rejected with)
    an error object, after a lookup that returned rows, the handler has
    read the store once and called Chroma once, logs the failure and
    answers [serverError] with the error's message; it ends normally. *)
Theorem delegation_failure_reported (ids : value) (rows : list value)
        (docs : list StoredObservation.t) (e : value) :
  invalid_ids ids = false ->
  getObservationsByIds ids (JObject []) = Normal rows ->
  rows <> [] ->
  map_completion toStoredObservation rows = Normal docs ->
  syncStoredObservations docs = Throw e ->
  nullish e = false ->
  exists message,
    get e "message" = Normal message
    /\ sync ids = ([syncing_log ids; read_call ids;
                    chromaSync_syncStoredObservations docs;
                    failed_log message; respond (sync_failed message)],
                   Normal tt)
    /\ reads (trace (sync ids)) = 1
    /\ writes (trace (sync ids)) = 1.
Proof.
  intros Hvalid Hget Hne Hmap Hsync He.
  destruct (get_not_nullish e "message" He) as (message & Hmsg).
  exists message. split; [assumption|].
  assert (E : sync ids = ([syncing_log ids; read_call ids;
                           chromaSync_syncStoredObservations docs;
                           failed_log message;
                           respond (sync_failed message)], Normal tt)).
  { rewrite (sync_valid _ _ ids Hvalid).
    rewrite (run_embedding_throws _ _ ids rows docs e Hget Hne Hmap Hsync).
    now rewrite (catch_clause_run e message Hmsg). }
  rewrite E. repeat split.
Qed.


(** X3. A request whose body is [undefined] or [null] makes the handler
    throw at once, when it takes [ids] out of the body: nothing is logged,
    no collaborator is called and no answer is given by the handler. *)
Theorem missing_body_throws (body : value) :
  nullish body = true ->
  trace (handle body) = []
  /\ exists e, outcome (handle body) = Throw e.
Proof.
  intros H. destruct (get_nullish body "ids" H) as (e & E).
  unfold handleSyncObservations. rewrite E, bind_lift_throw.
  split; [reflexivity | now exists e].
Qed.

(** The call to Chroma in a trace comes from a lookup that returned rows,
    and is the only one. *)
Lemma write_from_rows (ids : value) (docs : list StoredObservation.t) :
  invalid_ids ids = false ->
  In (chromaSync_syncStoredObservations docs) (trace (sync ids)) ->
  exists rows t,
    getObservationsByIds ids (JObject []) = Normal rows
    /\ rows <> []
    /\ map_completion toStoredObservation rows = Normal docs
    /\ trace (sync ids)
       = syncing_log ids :: read_call ids
           :: chromaSync_syncStoredObservations docs :: t
    /\ filter is_write t = [].
Proof.
  intros Hvalid.
  destruct (sync_cases getObservationsByIds syncStoredObservations
              ids Hvalid)
    as [(e & Hget & ->)
       | [(Hget & ->)
         | [(rows & e & Hget & Hne & Hmap & ->)
           | [(rows & docs' & e & Hget & Hne & Hmap & Hsync & ->)
             | (rows & docs' & count & Hget & Hne & Hmap & Hsync & ->)]]]];
    cbn [trace fst]; intros Hin.
  - exfalso. destruct Hin as [H | [H | H]]; try discriminate H.
    destruct (catch_clause_quiet e) as (_ & Hw & _).
    now apply (write_in_trace docs _ H).
  - exfalso. destruct Hin as [H | [H | [H | []]]]; discriminate H.
  - exfalso. destruct Hin as [H | [H | H]]; try discriminate H.
    destruct (catch_clause_quiet e) as (_ & Hw & _).
    now apply (write_in_trace docs _ H).
  - destruct (catch_clause_quiet e) as (_ & Hw & _).
    destruct Hin as [H | [H | [H | H]]]; try discriminate H.
    + injection H as <-. exists rows, (trace (catch_clause e)).
      now repeat split.
    + exfalso. now apply (write_in_trace docs _ H).
  - destruct Hin as [H | [H | [H | [H | [H | []]]]]]; try discriminate H.
    injection H as <-.
    exists rows, [synced_log count rows; respond (success count)].
    now repeat split.
Qed.

(** X4. Whatever the request holds and whatever the collaborators do, as
    long as the body is there and what they throw are error objects, the
    handler ends normally and has answered exactly once. *)
Theorem always_one_answer (body : value) :
  nullish body = false ->
  (forall ids options e,
      getObservationsByIds ids options = Throw e -> nullish e = false) ->
  (forall docs e,
      syncStoredObservations docs = Throw e -> nullish e = false) ->
  outcome (handle body) = Normal tt
  /\ List.length (responses (trace (handle body))) = 1.
Proof.
  intros Hbody Hstore Hchroma.
  destruct (get_not_nullish body "ids" Hbody) as (ids & Hids).
  unfold handleSyncObservations. rewrite Hids, bind_lift_normal.
  destruct (invalid_ids ids) eqn:Hvalid.
  - unfold syncObservations. rewrite Hvalid. now split.
  - destruct (sync_cases getObservationsByIds syncStoredObservations
                ids Hvalid)
      as [(e & Hget & ->)
         | [(Hget & ->)
           | [(rows & e & Hget & Hne & Hmap & ->)
             | [(rows & docs & e & Hget & Hne & Hmap & Hsync & ->)
               | (rows & docs & count & Hget & Hne & Hmap & Hsync & ->)]]]].
    + destruct (catch_clause_error e (Hstore _ _ _ Hget)) as (m & ->).
      now split.
    + now split.
    + destruct (map_completion_throws _ _ _ Hmap) as (row & _ & Hrow).
      destruct (toStoredObservation_throws row e Hrow) as (msg & ->).
      rewrite (catch_clause_run _ _ (TypeError_message msg)). now split.
    + destruct (catch_clause_error e (Hchroma _ _ Hsync)) as (m & ->).
      now split.
    + now split.
Qed.

(** X5. Chroma is called with the whole batch at once: when it is called,
    the lookup has returned rows, the call comes right after the read and
    is the only call to Chroma, and it is given one document per row, in
    the order of the rows, each with the id of its row. *)
Theorem chroma_gets_whole_batch (ids : value)
        (docs : list StoredObservation.t) :
  invalid_ids ids = false ->
  In (chromaSync_syncStoredObservations docs) (trace (sync ids)) ->
  exists rows t,
    getObservationsByIds ids (JObject []) = Normal rows
    /\ rows <> []
    /\ trace (sync ids)
       = syncing_log ids :: read_call ids
           :: chromaSync_syncStoredObservations docs :: t
    /\ filter is_write t = []
    /\ List.length docs = List.length rows
    /\ Forall2 (fun row d =>
                  toStoredObservation row = Normal d
                  /\ get row "id" = Normal (StoredObservation.id d))
               rows docs.
Proof.
  intros Hvalid Hin.
  destruct (write_from_rows ids docs Hvalid Hin)
    as (rows & t & Hget & Hne & Hmap & Htrace & Hw).
  exists rows, t. repeat split; try assumption.
  - apply (map_completion_length _ _ _ Hmap).
  - apply map_completion_Forall2 in Hmap.
    revert Hmap. apply Forall2_impl. intros row d Hd.
    split; [assumption | now apply toStoredObservation_id].
Qed.

(** X6. Every document handed to Chroma, whatever the store returned, has
    [text] [null], its four collection fields text, and a prompt number and
    a discovery-token count that are 0 or truthy (never [null],
    [undefined], [NaN], [false] or the empty string). *)
Theorem documents_for_chroma_normalized (ids : value)
        (docs : list StoredObservation.t) (d : StoredObservation.t) :
  invalid_ids ids = false ->
  In (chromaSync_syncStoredObservations docs) (trace (sync ids)) ->
  In d docs ->
  StoredObservation.text d = JNull
  /\ (forall name field,
         In (name, field) collection_fields -> exists t, field d = JString t)
  /\ (truthy (StoredObservation.prompt_number d) = true
      \/ StoredObservation.prompt_number d = JNumber (Finite 0))
  /\ (truthy (StoredObservation.discovery_tokens d) = true
      \/ StoredObservation.discovery_tokens d = JNumber (Finite 0)).
Proof.
  intros Hvalid Hin Hd.
  destruct (write_from_rows ids docs Hvalid Hin)
    as (rows & _ & _ & _ & Hmap & _).
  destruct (map_completion_in _ _ _ Hmap d Hd) as (row & _ & Hrow).
  now apply (toStoredObservation_normalized row).
Qed.

(** Where an answer in the trace of a valid call comes from. *)
Lemma answer_cases (ids : value) (r : response) :
  invalid_ids ids = false ->
  In (respond r) (trace (sync ids)) ->
  (exists message, r = sync_failed message)
  \/ (r = no_observations
      /\ getObservationsByIds ids (JObject []) = Normal [])
  \/ (exists rows docs count,
         r = success count
         /\ getObservationsByIds ids (JObject []) = Normal rows
         /\ rows <> []
         /\ map_completion toStoredObservation rows = Normal docs
         /\ syncStoredObservations docs = Normal count).
Proof.
  intros Hvalid.
  destruct (sync_cases getObservationsByIds syncStoredObservations
              ids Hvalid)
    as [(e & Hget & ->)
       | [(Hget & ->)
         | [(rows & e & Hget & Hne & Hmap & ->)
           | [(rows & docs & e & Hget & Hne & Hmap & Hsync & ->)
             | (rows & docs & count & Hget & Hne & Hmap & Hsync & ->)]]]];
    cbn [trace fst]; intros Hin.
  - destruct Hin as [H | [H | H]]; try discriminate H.
    left. now apply (catch_clause_answers e).
  - destruct Hin as [H | [H | [H | []]]]; try discriminate H.
    injection H as <-. right; left. now split.
  - destruct Hin as [H | [H | H]]; try discriminate H.
    left. now apply (catch_clause_answers e).
  - destruct Hin as [H | [H | [H | H]]]; try discriminate H.
    left. now apply (catch_clause_answers e).
  - destruct Hin as [H | [H | [H | [H | [H | []]]]]]; try discriminate H.
    injection H as <-. right; right. exists rows, docs, count.
    now repeat split.
Qed.

(** X7. The handler never makes up a result: it answers a success with a
    count only when Chroma was called on the documents of the rows and
    resolved to that very count, and it answers that no observations were
    found only when the lookup returned no row. *)
Theorem answers_come_from_collaborators (ids : value) :
  invalid_ids ids = false ->
  (forall count,
      In (respond (success count)) (trace (sync ids)) ->
      exists rows docs,
        getObservationsByIds ids (JObject []) = Normal rows
        /\ rows <> []
        /\ map_completion toStoredObservation rows = Normal docs
        /\ syncStoredObservations docs = Normal count)
  /\ (In (respond no_observations) (trace (sync ids)) ->
      getObservationsByIds ids (JObject []) = Normal []).
Proof.
  intros Hvalid. split.
  - intros count Hin.
    destruct (answer_cases ids _ Hvalid Hin)
      as [(m & H) | [(H & _) | (rows & docs & c & H & Hrest)]];
      try discriminate H.
    injection H as <-. now exists rows, docs.
  - intros Hin.
    destruct (answer_cases ids _ Hvalid Hin)
      as [(m & H) | [(_ & Hget) | (rows & docs & c & H & _)]];
      try discriminate H.
    exact Hget.
Qed.

(** X8. A call with valid [ids] starts by logging how many ids it was
    given and the ids themselves, of which it logs at most five: the first
    five, in their order. *)
Theorem at_most_five_ids_logged (v : value) (vs : list value) :
  exists logged t,
    trace (sync (JArray (v :: vs)))
    = logger_info "SYNC"
        ("Syncing " ++ string_of_Z (Z.of_nat (S (List.length vs)))
           ++ " observations to ChromaDB")
        (Some (JObject [("ids", JArray logged)])) :: t
    /\ List.length logged = Nat.min 5 (S (List.length vs))
    /\ List.length logged <= 5
    /\ exists others, v :: vs = (logged ++ others)%list.
Proof.
  exists (firstn 5 (v :: vs)).
  assert (Hvalid : invalid_ids (JArray (v :: vs)) = false) by reflexivity.
  rewrite (sync_valid _ _ _ Hvalid). eexists. split; [reflexivity|].
  split; [apply length_firstn|]. split; [apply firstn_le_length|].
  exists (skipn 5 (v :: vs)). symmetry. apply firstn_skipn.
Qed.

End OtherPaths.

(* ===================================================================== *)
(** ** More on the transformation *)
(* ===================================================================== *)

(** X9. The prompt number and the discovery-token count of a document are
    the row's own values when those are truthy, whatever their type
    (nothing is converted to a number), and 0 for every falsy value, not
    only for a missing one: [null], [undefined], [NaN], [false] and the
    empty string all become 0.  The row has a document whenever its
    collection fields can be normalized. *)
Theorem numeric_fields_or_zero (props : list (string * value)) :
  (forall d,
      toStoredObservation (JObject props) = Normal d ->
      (truthy (lookup "prompt_number" props) = true ->
       StoredObservation.prompt_number d = lookup "prompt_number" props)
      /\ (truthy (lookup "prompt_number" props) = false ->
          StoredObservation.prompt_number d = JNumber (Finite 0))
      /\ (truthy (lookup "discovery_tokens" props) = true ->
          StoredObservation.discovery_tokens d
          = lookup "discovery_tokens" props)
      /\ (truthy (lookup "discovery_tokens" props) = false ->
          StoredObservation.discovery_tokens d = JNumber (Finite 0)))
  /\ (transformable props = true ->
      exists d, toStoredObservation (JObject props) = Normal d).
Proof.
  split; [|apply toStoredObservation_succeeds].
  intros d Hd.
  destruct (toStoredObservation_document props d Hd)
    as (_ & _ & _ & _ & _ & -> & ->).
  unfold js_or. repeat split; intros ->; reflexivity.
Qed.

(** X10. Normalizing is a round trip on its own results: a row that
    carries, as a collection field, the field of a document built before
    gives a document with the very same field.  Syncing a normalized
    document again never encodes it a second time. *)
Theorem renormalizing_changes_nothing
        (props props' : list (string * value))
        (d d' : StoredObservation.t) (name : string)
        (field : StoredObservation.t -> value) :
  toStoredObservation (JObject props) = Normal d ->
  In (name, field) collection_fields ->
  lookup name props' = field d ->
  toStoredObservation (JObject props') = Normal d' ->
  field d' = field d.
Proof.
  intros Hd Hin Hsame Hd'.
  pose proof (field_normalized props d name field Hd Hin) as H.
  pose proof (field_normalized props' d' name field Hd' Hin) as H'.
  rewrite Hsame in H'.
  rewrite (normalize_collection_idempotent _ _ H) in H'.
  now injection H'.
Qed.

(* ===================================================================== *)
(** ** More examples *)
(* ===================================================================== *)

Lemma delegation_failure_reported_witness :
  invalid_ids example_ids = false
  /\ example_chroma_down example_docs
     = Throw (Error_object "chroma is down")
  /\ exists message,
       get (Error_object "chroma is down") "message" = Normal message
       /\ syncObservations example_store_five example_chroma_down
            example_ids
          = ([syncing_log example_ids; read_call example_ids;
              chromaSync_syncStoredObservations example_docs;
              failed_log message; respond (sync_failed message)],
             Normal tt)
       /\ reads (trace (syncObservations example_store_five
                          example_chroma_down example_ids)) = 1
       /\ writes (trace (syncObservations example_store_five
                           example_chroma_down example_ids)) = 1.
Proof.
  split; [reflexivity|]. split; [reflexivity|].
  apply (delegation_failure_reported example_store_five example_chroma_down
           example_ids example_rows example_docs
           (Error_object "chroma is down"));
    [reflexivity | reflexivity | discriminate | reflexivity | reflexivity
    | reflexivity].
Defined.


Lemma missing_body_throws_witness :
  nullish JUndefined = true
  /\ trace (handleSyncObservations example_store_five example_chroma_all
              JUndefined) = []
  /\ exists e,
       outcome (handleSyncObservations example_store_five
                  example_chroma_all JUndefined) = Throw e.
Proof.
  split; [reflexivity|].
  apply (missing_body_throws example_store_five example_chroma_all
           JUndefined).
  reflexivity.
Defined.

Lemma always_one_answer_witness :
  nullish (JObject [("ids", example_ids)]) = false
  /\ outcome (handleSyncObservations example_store_locked
                example_chroma_all (JObject [("ids", example_ids)]))
     = Normal tt
  /\ List.length
       (responses
          (trace (handleSyncObservations example_store_locked
                    example_chroma_all (JObject [("ids", example_ids)]))))
     = 1.
Proof.
  split; [reflexivity|].
  apply (always_one_answer example_store_locked example_chroma_all
           (JObject [("ids", example_ids)])).
  - reflexivity.
  - intros ids options e H. injection H as <-. reflexivity.
  - intros docs e H. discriminate H.
Defined.

Lemma chroma_gets_whole_batch_witness :
  In (chromaSync_syncStoredObservations example_docs)
     (trace (syncObservations example_store_five example_chroma_three
               example_ids))
  /\ exists rows t,
       example_store_five example_ids (JObject []) = Normal rows
       /\ rows <> []
       /\ trace (syncObservations example_store_five example_chroma_three
                   example_ids)
          = syncing_log example_ids :: read_call example_ids
              :: chromaSync_syncStoredObservations example_docs :: t
       /\ filter is_write t = []
       /\ List.length example_docs = List.length rows
       /\ Forall2 (fun row d =>
                     toStoredObservation row = Normal d
                     /\ get row "id" = Normal (StoredObservation.id d))
                  rows example_docs.
Proof.
  assert (H : In (chromaSync_syncStoredObservations example_docs)
                 (trace (syncObservations example_store_five
                           example_chroma_three example_ids))).
  { right. right. left. reflexivity. }
  split; [exact H|].
  apply (chroma_gets_whole_batch example_store_five example_chroma_three
           example_ids example_docs); [reflexivity | exact H].
Defined.

Lemma documents_for_chroma_normalized_witness :
  In example_doc example_docs
  /\ StoredObservation.text example_doc = JNull
  /\ (forall name field,
         In (name, field) collection_fields ->
         exists t, field example_doc = JString t)
  /\ (truthy (StoredObservation.prompt_number example_doc) = true
      \/ StoredObservation.prompt_number example_doc = JNumber (Finite 0))
  /\ (truthy (StoredObservation.discovery_tokens example_doc) = true
      \/ StoredObservation.discovery_tokens example_doc
         = JNumber (Finite 0)).
Proof.
  split; [left; reflexivity|].
  apply (documents_for_chroma_normalized example_store_five
           example_chroma_three example_ids example_docs example_doc).
  - reflexivity.
  - right. right. left. reflexivity.
  - left. reflexivity.
Defined.

Lemma answers_come_from_collaborators_witness :
  In (respond (success (JNumber (Finite 3))))
     (trace (syncObservations example_store_five example_chroma_three
               example_ids))
  /\ exists rows docs,
       example_store_five example_ids (JObject []) = Normal rows
       /\ rows <> []
       /\ map_completion toStoredObservation rows = Normal docs
       /\ example_chroma_three docs = Normal (JNumber (Finite 3)).
Proof.
  assert (H : In (respond (success (JNumber (Finite 3))))
                 (trace (syncObservations example_store_five
                           example_chroma_three example_ids))).
  { do 4 right. left. reflexivity. }
  split; [exact H|].
  apply (proj1 (answers_come_from_collaborators example_store_five
                  example_chroma_three example_ids eq_refl)).
  exact H.
Defined.

Lemma numeric_fields_or_zero_witness :
  truthy (lookup "prompt_number" example_props_numbers) = true
  /\ truthy (lookup "discovery_tokens" example_props_numbers) = false
  /\ transformable example_props_numbers = true
  /\ exists d,
       toStoredObservation (JObject example_props_numbers) = Normal d
       /\ StoredObservation.prompt_number d = JNumber (Finite 7)
       /\ StoredObservation.discovery_tokens d = JNumber (Finite 0).
Proof.
  split; [reflexivity|]. split; [reflexivity|]. split; [reflexivity|].
  destruct (numeric_fields_or_zero example_props_numbers) as (Hall & Hex).
  destruct (Hex eq_refl) as (d & Hd).
  destruct (Hall d Hd) as (Hp & _ & _ & Ht).
  exists d. split; [exact Hd|].
  split; [apply Hp; reflexivity | apply Ht; reflexivity].
Defined.

Lemma renormalizing_changes_nothing_witness :
  toStoredObservation (JObject (example_props 1)) = Normal example_doc
  /\ exists d',
       toStoredObservation
         (JObject [("facts", StoredObservation.facts example_doc)])
       = Normal d'
       /\ StoredObservation.facts d' = StoredObservation.facts example_doc.
Proof.
  split; [reflexivity|].
  eexists. split; [reflexivity|].
  apply (renormalizing_changes_nothing (example_props 1)
           [("facts", StoredObservation.facts example_doc)]
           example_doc _ "facts" StoredObservation.facts);
    [reflexivity | left; reflexivity | reflexivity | reflexivity].
Defined.
